(** * taylor.integrity: download integrity checks against a Swift object store

    A shallow embedding of [taylor/integrity.py] (Python 2.7, see the
    classifiers of [setup.py]) and the properties of its three entry points
    [filesize_check], [md5_check] and [check_integrity].

    Python 2 [str] values are byte strings; they are modelled by [string]
    (a sequence of 8-bit [ascii] characters).  This covers the output of
    [subprocess.check_output], the content of the local file opened with
    mode ['rb'] and the hexadecimal digests alike. *)

From Stdlib Require Import ZArith List Ascii String Lia.
From Stdlib Require Import DecimalString DecimalN DecimalPos.
From stdpp Require Import base decidable list gmap strings.

Import ListNotations.
Local Open Scope string_scope.
Local Open Scope Z_scope.

(** ** hashlib.md5

    [md5(data).hexdigest()] following RFC 1321, on 32-bit words held in [Z]
    with the wrap-around written out. *)

Module MD5.

Definition mask32 (x : Z) : Z := Z.land x 0xffffffff.

Definition add32 (a b : Z) : Z := mask32 (a + b).

Definition not32 (x : Z) : Z := Z.lxor x 0xffffffff.

Definition rotl32 (x c : Z) : Z :=
  Z.lor (mask32 (Z.shiftl x c)) (Z.shiftr x (32 - c)).

(** Per-round shift amounts. *)
Definition shifts : list Z :=
  [ 7; 12; 17; 22;  7; 12; 17; 22;  7; 12; 17; 22;  7; 12; 17; 22;
    5;  9; 14; 20;  5;  9; 14; 20;  5;  9; 14; 20;  5;  9; 14; 20;
    4; 11; 16; 23;  4; 11; 16; 23;  4; 11; 16; 23;  4; 11; 16; 23;
    6; 10; 15; 21;  6; 10; 15; 21;  6; 10; 15; 21;  6; 10; 15; 21 ].

(** [K[i] = floor(2^32 * abs(sin(i + 1)))]. *)
Definition K : list Z :=
  [ 0xd76aa478; 0xe8c7b756; 0x242070db; 0xc1bdceee;
    0xf57c0faf; 0x4787c62a; 0xa8304613; 0xfd469501;
    0x698098d8; 0x8b44f7af; 0xffff5bb1; 0x895cd7be;
    0x6b901122; 0xfd987193; 0xa679438e; 0x49b40821;
    0xf61e2562; 0xc040b340; 0x265e5a51; 0xe9b6c7aa;
    0xd62f105d; 0x02441453; 0xd8a1e681; 0xe7d3fbc8;
    0x21e1cde6; 0xc33707d6; 0xf4d50d87; 0x455a14ed;
    0xa9e3e905; 0xfcefa3f8; 0x676f02d9; 0x8d2a4c8a;
    0xfffa3942; 0x8771f681; 0x6d9d6122; 0xfde5380c;
    0xa4beea44; 0x4bdecfa9; 0xf6bb4b60; 0xbebfbc70;
    0x289b7ec6; 0xeaa127fa; 0xd4ef3085; 0x04881d05;
    0xd9d4d039; 0xe6db99e5; 0x1fa27cf8; 0xc4ac5665;
    0xf4292244; 0x432aff97; 0xab9423a7; 0xfc93a039;
    0x655b59c3; 0x8f0ccc92; 0xffeff47d; 0x85845dd1;
    0x6fa87e4f; 0xfe2ce6e0; 0xa3014314; 0x4e0811a1;
    0xf7537e82; 0xbd3af235; 0x2ad7d2bb; 0xeb86d391 ].

Definition byte_of_ascii (c : ascii) : Z := Z.of_N (N_of_ascii c).

Fixpoint bytes_of_string (s : string) : list Z :=
  match s with
  | EmptyString => []
  | String c s' => byte_of_ascii c :: bytes_of_string s'
  end.

(** Little-endian bytes of the low [8 * n] bits of [x]. *)
Fixpoint le_bytes (n : nat) (x : Z) : list Z :=
  match n with
  | O => []
  | S n' => Z.land x 0xff :: le_bytes n' (Z.shiftr x 8)
  end.

Fixpoint le_word (bs : list Z) : Z :=
  match bs with
  | [] => 0
  | b :: bs' => Z.lor b (Z.shiftl (le_word bs') 8)
  end.

(** Padding: a single 1 bit, zeros up to 56 modulo 64 bytes, then the
    length of the message in bits as a 64-bit little-endian number. *)
Definition pad (msg : list Z) : list Z :=
  let len := Z.of_nat (List.length msg) in
  let zeros := Z.to_nat ((55 - len) mod 64) in
  msg ++ [0x80] ++ List.repeat 0 zeros ++ le_bytes 8 (8 * len).

Fixpoint words (n : nat) (bs : list Z) : list Z :=
  match n with
  | O => []
  | S n' => le_word (firstn 4 bs) :: words n' (skipn 4 bs)
  end.

Definition state : Type := Z * Z * Z * Z.

Definition init : state := (0x67452301, 0xefcdab89, 0x98badcfe, 0x10325476).

Definition step (M : list Z) (st : state) (i : nat) : state :=
  let '(a, b, c, d) := st in
  let iz := Z.of_nat i in
  let '(f, g) :=
    if iz <? 16 then (Z.lor (Z.land b c) (Z.land (not32 b) d), iz)
    else if iz <? 32 then
      (Z.lor (Z.land d b) (Z.land (not32 d) c), (5 * iz + 1) mod 16)
    else if iz <? 48 then (Z.lxor b (Z.lxor c d), (3 * iz + 5) mod 16)
    else (Z.lxor c (Z.lor b (not32 d)), (7 * iz) mod 16) in
  let f' := add32 (add32 (add32 f a) (nth i K 0)) (nth (Z.to_nat g) M 0) in
  (d, add32 b (rotl32 f' (nth i shifts 0)), b, c).

Definition compress (st : state) (block : list Z) : state :=
  let M := words 16 block in
  let '(a, b, c, d) := st in
  let '(a', b', c', d') := fold_left (step M) (seq 0 64) st in
  (add32 a a', add32 b b', add32 c c', add32 d d').

Fixpoint blocks (n : nat) (st : state) (bs : list Z) : state :=
  match n with
  | O => st
  | S n' => blocks n' (compress st (firstn 64 bs)) (skipn 64 bs)
  end.

(** The 16 bytes of [md5(data).digest()]. *)
Definition digest (data : string) : list Z :=
  let padded := pad (bytes_of_string data) in
  let '(a, b, c, d) := blocks (List.length padded / 64) init padded in
  le_bytes 4 a ++ le_bytes 4 b ++ le_bytes 4 c ++ le_bytes 4 d.

Definition hex_digit (n : Z) : ascii :=
  nth (Z.to_nat n)
      (list_ascii_of_string "0123456789abcdef") "0"%char.

Fixpoint hex_of_bytes (bs : list Z) : string :=
  match bs with
  | [] => EmptyString
  | b :: bs' =>
      String (hex_digit (Z.shiftr b 4))
        (String (hex_digit (Z.land b 0xf)) (hex_of_bytes bs'))
  end.

(** [md5(data).hexdigest()]: 32 lower-case hexadecimal characters. *)
Definition hexdigest (data : string) : string := hex_of_bytes (digest data).

End MD5.

(** ** Python 2 string primitives used by the module *)

Module Py.

(** [str.isspace] for one character in the C locale, which is also what
    [\s] matches in a byte-string pattern without flags:
    space, [\t], [\n], [\v], [\f], [\r]. *)
Definition isspace (c : ascii) : bool :=
  let n := N_of_ascii c in
  ((n =? 32) || ((9 <=? n) && (n <=? 13)))%N.

(** [\d] *)
Definition isdigit (c : ascii) : bool :=
  let n := N_of_ascii c in ((48 <=? n) && (n <=? 57))%N.

(** [\w], that is [[a-zA-Z0-9_]] *)
Definition isword (c : ascii) : bool :=
  let n := N_of_ascii c in
  (isdigit c || ((65 <=? n) && (n <=? 90)) || ((97 <=? n) && (n <=? 122))
   || (n =? 95))%N.

(** [\S] *)
Definition isnonspace (c : ascii) : bool := negb (isspace c).

Definition is_empty (s : string) : bool :=
  match s with EmptyString => true | String _ _ => false end.

Fixpoint lstrip (s : string) : string :=
  match s with
  | EmptyString => EmptyString
  | String c s' => if isspace c then lstrip s' else s
  end.

Fixpoint rstrip (s : string) : string :=
  match s with
  | EmptyString => EmptyString
  | String c s' =>
      match rstrip s' with
      | EmptyString => if isspace c then EmptyString else String c EmptyString
      | r => String c r
      end
  end.

(** [s.strip()] *)
Definition strip (s : string) : string := rstrip (lstrip s).

(** [s.split()]: the maximal runs of non-whitespace characters. *)
Fixpoint split (s : string) : list string :=
  match s with
  | EmptyString => []
  | String c s' =>
      if isspace c then split s'
      else
        match s' with
        | EmptyString => [String c EmptyString]
        | String c' _ =>
            if isspace c' then String c EmptyString :: split s'
            else
              match split s' with
              | w :: ws => String c w :: ws
              | [] => [String c EmptyString]
              end
        end
  end.

(** [s.split(sep)] for a one-character separator: always at least one
    component, empty components are kept. *)
Fixpoint split_on (sep : ascii) (s : string) : list string :=
  match s with
  | EmptyString => [EmptyString]
  | String c s' =>
      if Ascii.eqb c sep then EmptyString :: split_on sep s'
      else
        match split_on sep s' with
        | w :: ws => String c w :: ws
        | [] => [String c EmptyString]
        end
  end.

(** [l[-k]] for [k >= 1]; [None] stands for [IndexError]. *)
Definition index_from_end {A} (l : list A) (k : nat) : option A :=
  if (k <=? List.length l)%nat then nth_error l (List.length l - k) else None.

Fixpoint digits_value (acc : Z) (s : string) : option Z :=
  match s with
  | EmptyString => Some acc
  | String c s' =>
      if isdigit c
      then digits_value (10 * acc + (Z.of_N (N_of_ascii c) - 48)) s'
      else None
  end.

Definition unsigned_value (s : string) : option Z :=
  if is_empty s then None else digits_value 0 s.

(** [int(s)] for a string argument: surrounding whitespace is ignored, an
    optional sign is followed by at least one decimal digit; [None] stands
    for [ValueError].  Results are unbounded (Python promotes to [long]). *)
Definition int (s : string) : option Z :=
  match strip s with
  | EmptyString => None
  | String c s' =>
      if Ascii.eqb c "-" then Z.opp <$> unsigned_value s'
      else if Ascii.eqb c "+" then unsigned_value s'
      else unsigned_value (String c s')
  end.

(** Longest prefix of characters in class [p], and the rest. *)
Fixpoint span (p : ascii → bool) (s : string) : string * string :=
  match s with
  | EmptyString => (EmptyString, EmptyString)
  | String c s' =>
      if p c then let '(a, b) := span p s' in (String c a, b)
      else (EmptyString, s)
  end.

(** Every character of [s] is in class [p]. *)
Fixpoint all (p : ascii → bool) (s : string) : bool :=
  match s with
  | EmptyString => true
  | String c s' => p c && all p s'
  end.

Fixpoint strip_prefix (lit s : string) : option string :=
  match lit, s with
  | EmptyString, _ => Some s
  | String a lit', String b s' =>
      if Ascii.eqb a b then strip_prefix lit' s' else None
  | String _ _, EmptyString => None
  end.

(** A match of the pattern [lit\s+(C+)] anchored at the start of [s],
    returning group 1.  Both repetitions are greedy.  The classes [C] used
    by the module ([\d], [\w], [\S]) are disjoint from [\s], so giving
    back whitespace can never make [C+] succeed and no backtracking is
    involved. *)
Definition match_here (lit : string) (cls : ascii → bool) (s : string)
  : option string :=
  match strip_prefix lit s with
  | None => None
  | Some r =>
      let '(ws, r') := span isspace r in
      if is_empty ws then None
      else
        let '(g, _) := span cls r' in
        if is_empty g then None else Some g
  end.

(** [re.search(r'lit\s+(C+)', s)] followed by [.group(1)]: the match at the
    leftmost position where there is one; [None] is Python's [None]. *)
Fixpoint re_search (lit : string) (cls : ascii → bool) (s : string)
  : option string :=
  match match_here lit cls s with
  | Some g => Some g
  | None =>
      match s with
      | EmptyString => None
      | String _ s' => re_search lit cls s'
      end
  end.

End Py.

Definition newline : string := String (ascii_of_nat 10) EmptyString.
Definition tab : string := String (ascii_of_nat 9) EmptyString.

(** ** Outcomes, the environment and the command trace *)

Inductive exn_class : Type :=
| ValueError
| AttributeError
| IndexError
| CalledProcessError
| IOError
| OSError
| OverflowError
| MemoryError.

Global Instance exn_class_eq_dec : EqDecision exn_class.
Proof. solve_decision. Defined.

(** A raised exception: its class and its message. *)
Inductive exn : Type := Exn (cls : exn_class) (msg : string).

(** What a call does: it returns a value, raises, or never returns. *)
Inductive outcome (A : Type) : Type :=
| Return (a : A)
| Raise (e : exn)
| Diverge.

Arguments Return {A} a.
Arguments Raise {A} e.
Arguments Diverge {A}.

(** What the module sees of the outside: the standard output of a shell
    command run through [subprocess.check_output(cmd, shell=True)] ([None]
    when the command exits with a non-zero status), the content of the
    local files ([None] when the path cannot be opened), and two limits of
    the machine: [sys.maxint], the largest C [long], and the size in bytes
    of the largest buffer that can be allocated. *)
Record world : Type := World {
  shell : string → option string;
  files : string → option string;
  maxint : N;
  memory : N
}.

(** Commands run so far, oldest first. *)
Definition trace : Type := list string.

(** Computations: they extend the trace and end in an outcome. *)
Definition M (A : Type) : Type := trace → outcome A * trace.

Definition ret {A} (a : A) : M A := λ tr, (Return a, tr).

Definition bind {A B} (m : M A) (k : A → M B) : M B :=
  λ tr,
    match m tr with
    | (Return a, tr') => k a tr'
    | (Raise e, tr') => (Raise e, tr')
    | (Diverge, tr') => (Diverge, tr')
    end.

Definition raise {A} (cls : exn_class) (msg : string) : M A :=
  λ tr, (Raise (Exn cls msg), tr).

Definition diverge {A} : M A := λ tr, (Diverge, tr).

Notation "x <- m ;; k" := (bind m (λ x, k))
  (at level 100, m at next level, right associativity).

(** [try: m except cls: handler] *)
Definition try_except {A} (m : M A) (cls : exn_class) (handler : M A) : M A :=
  λ tr,
    match m tr with
    | (Raise (Exn c msg), tr') =>
        if decide (c = cls) then handler tr' else (Raise (Exn c msg), tr')
    | r => r
    end.

(** Run a computation from the empty trace. *)
Definition run {A} (m : M A) : outcome A * trace := m [].

(** [subprocess.check_output(cmd, shell=True)] *)
Definition check_output (w : world) (cmd : string) : M string :=
  λ tr,
    (match shell w cmd with
     | Some out => Return out
     | None => Raise (Exn CalledProcessError cmd)
     end, (tr ++ [cmd])%list).

(** ['swift stat {container} {object}'.format(...)] *)
Definition swift_stat (container object : string) : string :=
  "swift stat " +:+ container +:+ " " +:+ object.

(** ['swift list {container} --prefix {object}'.format(...)] *)
Definition swift_list (container object : string) : string :=
  "swift list " +:+ container +:+ " --prefix " +:+ object.

(** [os.path.getsize(path)] *)
Definition getsize (w : world) (path : string) : M Z :=
  match files w path with
  | Some data => ret (Z.of_nat (String.length data))
  | None => raise OSError path
  end.

(** [open(path, 'rb')]: the bytes that remain to be read. *)
Definition open (w : world) (path : string) : M string :=
  match files w path with
  | Some data => ret data
  | None => raise IOError path
  end.

Fixpoint str_take (n : nat) (s : string) : string :=
  match n, s with
  | O, _ | _, EmptyString => EmptyString
  | S n', String c s' => String c (str_take n' s')
  end.

Fixpoint str_drop (n : nat) (s : string) : string :=
  match n, s with
  | O, _ => s
  | _, EmptyString => EmptyString
  | S n', String _ s' => str_drop n' s'
  end.

(** An outcome as a computation that runs no command. *)
Definition lift {A} (r : outcome A) : M A := λ tr, (r, tr).

(** [f.read()] on the unread part of a file: the bytes returned and the
    part still unread. *)
Definition read_all (unread : string) : string * string :=
  (unread, EmptyString).

(** [f.read(size)] on the unread part of a file.  The size is converted to
    a C [long]: outside the range of [long] the call raises
    [OverflowError].  A negative size reads up to the end of the file.
    Otherwise a buffer of [size] bytes is allocated before anything is
    read, which raises [MemoryError] when it cannot be had. *)
Definition file_read (w : world) (size : Z) (unread : string)
  : outcome (string * string) :=
  if (size <? - Z.of_N (maxint w) - 1) || (Z.of_N (maxint w) <? size) then
    Raise (Exn OverflowError "Python int too large to convert to C long")
  else if size <? 0 then Return (unread, EmptyString)
  else if Z.of_N (memory w) <? size then Raise (Exn MemoryError "")
  else
    Return (str_take (Z.to_nat size) unread, str_drop (Z.to_nat size) unread).

(** [iter(partial(f.read, size), '')] run to exhaustion: the chunks read
    before the first empty one, or the exception of the call of [read]
    that raised.  [fuel] bounds the number of calls of [read]; [Diverge]
    means that more calls were needed. *)
Fixpoint iter_read (fuel : nat) (w : world) (size : Z) (unread : string)
  : outcome (list string) :=
  match fuel with
  | O => Diverge
  | S fuel' =>
      match file_read w size unread with
      | Return (chunk, unread') =>
          if Py.is_empty chunk then Return []
          else
            match iter_read fuel' w size unread' with
            | Return chunks => Return (chunk :: chunks)
            | Raise e => Raise e
            | Diverge => Diverge
            end
      | Raise e => Raise e
      | Diverge => Diverge
      end
  end.

(** ** taylor/integrity.py *)

(** [re.search(r'Content Length:\s+(\d+)', s)], group 1 *)
Definition content_length_search : string → option string :=
  Py.re_search "Content Length:" Py.isdigit.

(** [re.search(r'Manifest:\s+(\S+)', s)], group 1 *)
Definition manifest_search : string → option string :=
  Py.re_search "Manifest:" Py.isnonspace.

(** [re.search(r'ETag:\s+(\w+)', s)], group 1 *)
Definition etag_search : string → option string :=
  Py.re_search "ETag:" Py.isword.

(** [int(s)] as a computation. *)
Definition int_of (s : string) : M Z :=
  match Py.int s with
  | Some n => ret n
  | None => raise ValueError "invalid literal for int() with base 10"
  end.

(** [l[0]] and [l[-2]] as computations. *)
Definition item {A} (o : option A) : M A :=
  match o with
  | Some a => ret a
  | None => raise IndexError "list index out of range"
  end.

Definition filesize_check (w : world)
    (local_filepath object_container object_name : string) : M bool :=
  object_stat <- check_output w (swift_stat object_container object_name) ;;
  if Py.is_empty object_stat then
    raise ValueError "Swift stat returned nothing"
  else
    match content_length_search object_stat with
    | None =>
        raise AttributeError
          ("Content length not found for object " +:+ object_name
           +:+ " in swift stat")
    | Some group1 =>
        content_length <- int_of group1 ;;
        size <- getsize w local_filepath ;;
        ret (content_length =? size)
    end.

(** The set comprehension over [segments]: one [swift stat] per segment, in
    the order of the listing; [.group(1)] on a failed search is the
    [AttributeError] that the enclosing [try] catches. *)
Fixpoint remote_segment_md5s (w : world) (segment_container : string)
    (segments : list string) (acc : gset string) : M (gset string) :=
  match segments with
  | [] => ret acc
  | segment :: segments' =>
      stat <- check_output w (swift_stat segment_container segment) ;;
      match etag_search stat with
      | None =>
          raise AttributeError "'NoneType' object has no attribute 'group'"
      | Some group1 =>
          remote_segment_md5s w segment_container segments'
            (acc ∪ {[ Py.strip group1 ]})
      end
  end.

(** The body of the [for] loop over the chunks of the local file. *)
Definition local_segment_md5s (chunks : list string) : gset string :=
  fold_left (λ acc local_seg, acc ∪ {[ Py.strip (MD5.hexdigest local_seg) ]})
            chunks ∅.

(** [segment_container if segment_container else object_container + '_segments']:
    [None] and the empty string are both false. *)
Definition segment_container_or_default
    (segment_container : option string) (object_container : string) : string :=
  match segment_container with
  | Some c => if Py.is_empty c then object_container +:+ "_segments" else c
  | None => object_container +:+ "_segments"
  end.

(** [int(segment_size) if segment_size else int(segments[0].split('/')[-2])] *)
Definition segment_size_or_inferred (segment_size : Z) (segments : list string)
  : M Z :=
  if segment_size =? 0 then
    first <- item (segments !! 0%nat) ;;
    component <- item (Py.index_from_end (Py.split_on "/" first) 2) ;;
    int_of component
  else ret segment_size.

(** [segment_size] is an [int] (the command line declares [type=int],
    default 0), so the initial [int(segment_size)] test cannot raise.
    [segment_container] is [None] or a string. *)
Definition md5_check (w : world)
    (local_filepath object_container object_name : string)
    (segment_size : Z) (segment_container : option string) : M bool :=
  object_stat <- check_output w (swift_stat object_container object_name) ;;
  if Py.is_empty object_stat then
    raise AttributeError "Swift stat returned nothing"
  else
    match manifest_search object_stat with
    | None =>
        match etag_search object_stat with
        | None =>
            raise AttributeError
              ("ETag not found for object " +:+ object_name
               +:+ " in swift stat")
        | Some group1 =>
            let remote_md5 := Py.strip group1 in
            local_file <- open w local_filepath ;;
            let local_md5 :=
              Py.strip (MD5.hexdigest (fst (read_all local_file))) in
            ret (String.eqb local_md5 remote_md5)
        end
    | Some _ =>
        let segment_container :=
          segment_container_or_default segment_container object_container in
        listing <- check_output w (swift_list segment_container object_name) ;;
        let segments := Py.split (Py.strip listing) in
        remote <-
          try_except (remote_segment_md5s w segment_container segments ∅)
            AttributeError
            (raise AttributeError "ETag not found for segment in swift stat") ;;
        segment_size <- segment_size_or_inferred segment_size segments ;;
        local_file <- open w local_filepath ;;
        chunks <-
          lift (iter_read (S (String.length local_file)) w segment_size
                  local_file) ;;
        ret (bool_decide (local_segment_md5s chunks = remote))
    end.

(** [filesize_check(...) and md5_check(...)]: the right operand is evaluated
    only when the left one is true. *)
Definition check_integrity (w : world)
    (local_filepath object_container object_name : string)
    (segment_size : Z) (segment_container : option string) : M bool :=
  passed <- filesize_check w local_filepath object_container object_name ;;
  if passed then
    md5_check w local_filepath object_container object_name
      segment_size segment_container
  else ret passed.

(** ** Definitions used to state the properties *)

(** The shape of a match of [lit\s+(C+)]: the literal, a non-empty run of
    whitespace, the non-empty group, which is in class [C] and is not
    followed by a character of [C]. *)
Definition match_shape (lit : string) (cls : ascii → bool) (s g : string)
  : Prop :=
  ∃ ws rest,
    s = lit +:+ ws +:+ g +:+ rest ∧
    ws ≠ "" ∧ Py.all Py.isspace ws = true ∧
    g ≠ "" ∧ Py.all cls g = true ∧
    match rest with EmptyString => True | String c _ => cls c = false end.

(** [[0-9a-f]] *)
Definition is_lower_hex (c : ascii) : bool :=
  let n := N_of_ascii c in
  (((48 <=? n) && (n <=? 57)) || ((97 <=? n) && (n <=? 102)))%N.

(** [s.lower()], used to state the comparison that ignores case. *)
Definition lower_char (c : ascii) : ascii :=
  let n := N_of_ascii c in
  if ((65 <=? n) && (n <=? 90))%N then ascii_of_N (n + 32) else c.

Fixpoint lower (s : string) : string :=
  match s with
  | EmptyString => EmptyString
  | String c s' => String (lower_char c) (lower s')
  end.

(** [ceil(n / size)] *)
Definition ceil_div (n size : nat) : nat := ((n + size - 1) / size)%nat.

(** The chunking in the words of the specification: [ceil(length / size)]
    pieces, piece [i] holding the bytes from offset [i * size] up to
    [(i + 1) * size], the last one up to the end of the file. *)
Definition pieces (size : nat) (data : string) : list string :=
  (λ i, str_take size (str_drop (i * size) data))
    <$> seq 0 (ceil_div (String.length data) size).

Fixpoint str_concat (l : list string) : string :=
  match l with
  | [] => EmptyString
  | s :: l' => s +:+ str_concat l'
  end.

(** Two strings of the same length that differ at exactly one offset. *)
Definition differ_in_one_byte (a b : string) : Prop :=
  String.length a = String.length b ∧
  ∃ i, String.get i a ≠ String.get i b ∧
       ∀ j, j ≠ i → String.get j a = String.get j b.

(** The digest that the store reports for one segment. *)
Definition segment_etag (w : world) (segment_container segment : string)
  : option string :=
  shell w (swift_stat segment_container segment) ≫= etag_search.

(** [read(size)] can be served: the size fits a C [long] and a buffer of
    that size can be allocated. *)
Definition read_size_ok (w : world) (size : Z) : Prop :=
  (- Z.of_N (maxint w) - 1 ≤ size ≤ Z.of_N (maxint w)) ∧
  size ≤ Z.of_N (memory w).

(** The value that a computation returns, through [f]. *)
Definition outcome_map {A B} (f : A → B) (r : outcome A) : outcome B :=
  match r with
  | Return a => Return (f a)
  | Raise e => Raise e
  | Diverge => Diverge
  end.

(** ** Example environments *)

(** [sys.maxint] where a C [long] has 64 bits. *)
Definition sys_maxint : N := 9223372036854775807.

(** A machine that can allocate buffers of up to 4 GiB. *)
Definition example_memory : N := 4294967296.

(** A finite table of commands (or paths) and their output (or content). *)
Definition table (t : list (string * string)) (k : string) : option string :=
  snd <$> List.find (λ p, String.eqb (fst p) k) t.

(** Container [cont] holds [obj], for which [swift stat] prints [stat]; the
    local file [local] holds [data]. *)
Definition plain_world (stat data : string) : world :=
  World (table [("swift stat cont obj", stat)]) (table [("local", data)])
    sys_maxint example_memory.

(** A store that holds the segments [segs] (name and content of each) of
    the object [obj] of container [cont], under [segment_container], and a
    local file [local] that holds [data]. *)
Definition segmented_world_in (segment_container : string)
    (segs : list (string * string)) (data : string) : world :=
  World
    (table
       (("swift stat cont obj", "Manifest: cont_segments/obj") ::
        (swift_list segment_container "obj",
         str_concat ((λ seg, fst seg +:+ newline) <$> segs)) ::
        ((λ seg, (swift_stat segment_container (fst seg),
                  "ETag: " +:+ MD5.hexdigest (snd seg))) <$> segs)))
    (table [("local", data)])
    sys_maxint example_memory.

Definition segmented_world : list (string * string) → string → world :=
  segmented_world_in "cont_segments".

(** Scenario C of the specification: three segments of sizes 4, 4 and 2. *)
Definition scenario_C_segments : list (string * string) :=
  [ ("obj/1487100000.00/10/4/00000000", "aaaa");
    ("obj/1487100000.00/10/4/00000001", "bbbb");
    ("obj/1487100000.00/10/4/00000002", "cc") ].

(** One segment whose name carries the segment size 524288. *)
Definition inferred_size_segments : list (string * string) :=
  [ ("obj/1487100000.00/10/524288/00000000", "aaaabbbbcc") ].

(** ** The command-line entry point *)

Module Cli.

(** The dictionary that [main] receives: the keys that [populate_parser]
    declares, with the types that [argparse] gives them ([segment_size] has
    [type=int] and default 0, [segment_container] defaults to [None]). *)
Record args : Type := Args {
  local_filepath : string;
  remote_container : string;
  remote_object : string;
  segment_size : Z;
  segment_container : option string
}.

(** Commands run and strings written to [sys.stdout], each oldest first. *)
Definition channels : Type := trace * list string.

(** Computations of [main]: they run commands and write to standard
    output. *)
Definition IO (A : Type) : Type := channels → outcome A * channels.

Definition io_ret {A} (a : A) : IO A := λ ch, (Return a, ch).

Definition io_bind {A B} (m : IO A) (k : A → IO B) : IO B :=
  λ ch,
    match m ch with
    | (Return a, ch') => k a ch'
    | (Raise e, ch') => (Raise e, ch')
    | (Diverge, ch') => (Diverge, ch')
    end.

(** A check run from [main]: it extends the commands and writes nothing. *)
Definition call {A} (m : M A) : IO A :=
  λ ch, let '(r, tr') := m (fst ch) in (r, (tr', snd ch)).

(** [sys.stdout.write(text)] *)
Definition stdout_write (text : string) : IO unit :=
  λ ch, (Return tt, (fst ch, (snd ch ++ [text])%list)).

(** ['{}\n'.format('Passed' if passed else 'Failed')] *)
Definition verdict (passed : bool) : string :=
  (if passed then "Passed" else "Failed") +:+ newline.

(** ['Comparing {local} against {remote}\n'] with the remote written as
    ['/'.join([container, object])]. *)
Definition banner (a : args) : string :=
  "Comparing " +:+ local_filepath a +:+ " against "
  +:+ remote_container a +:+ "/" +:+ remote_object a +:+ newline.

(** [main(args)].  [parse_args] stands for
    [vars(parser.parse_args())], which [main] runs when it is given no
    arguments ([None] or an empty dictionary). *)
Definition main (w : world) (parse_args : IO args) (given : option args)
  : IO unit :=
  io_bind (match given with Some a => io_ret a | None => parse_args end)
    (λ a,
  io_bind (stdout_write (banner a)) (λ _,
  io_bind (stdout_write "File size check: ") (λ _,
  io_bind (call (filesize_check w (local_filepath a) (remote_container a)
                   (remote_object a))) (λ passed_size_check,
  io_bind (stdout_write (verdict passed_size_check)) (λ _,
  io_bind (stdout_write "MD5 checksum check: ") (λ _,
  io_bind (call (md5_check w (local_filepath a) (remote_container a)
                   (remote_object a) (segment_size a) (segment_container a)))
    (λ passed_md5_check,
  stdout_write (verdict passed_md5_check)))))))).

End Cli.

(** ** Further definitions used to state properties *)

(** The decimal notation of a natural number, as [swift] prints a content
    length and writes a segment size into a segment name. *)
Definition decimal (n : N) : string :=
  NilEmpty.string_of_uint (N.to_uint n).

(** [s.startswith(lit)] *)
Definition startswith (lit s : string) : bool :=
  match Py.strip_prefix lit s with Some _ => true | None => false end.

(** In [pre +:+ lit] the string [lit] occurs at the end and nowhere
    before. *)
Fixpoint first_occurrence (lit pre : string) : bool :=
  match pre with
  | EmptyString => true
  | String _ pre' =>
      negb (startswith lit (pre +:+ lit)) && first_occurrence lit pre'
  end.

(** No slash in the string. *)
Definition slash_free (s : string) : bool :=
  Py.all (λ c, negb (Ascii.eqb c "/")) s.

(** The first character, if any, is not in the class. *)
Definition not_starting_with (cls : ascii → bool) (s : string) : bool :=
  match s with EmptyString => true | String c _ => negb (cls c) end.

(** A store in which [swift stat cont obj] prints a content length and an
    ETag on separate lines, after two other lines. *)
Definition stat_output (content_length etag : string) : string :=
  "       Account: AUTH_test" +:+ newline
  +:+ "  Content Type: application/octet-stream" +:+ newline
  +:+ "Content Length: " +:+ content_length +:+ newline
  +:+ "          ETag: " +:+ etag +:+ newline.

(** The store [sh] with the output of one command replaced. *)
Definition with_output (sh : string → option string) (cmd out : string)
  : string → option string :=
  λ c, if String.eqb c cmd then Some out else sh c.

(** ** Test vectors *)

Example md5_empty : MD5.hexdigest "" = "d41d8cd98f00b204e9800998ecf8427e".
Proof. vm_compute. reflexivity. Qed.

Example md5_abc : MD5.hexdigest "abc" = "900150983cd24fb0d6963f7d28e17f72".
Proof. vm_compute. reflexivity. Qed.

Example md5_fox :
  MD5.hexdigest "The quick brown fox jumps over the lazy dog"
  = "9e107d9d372bb6826bd81d3542a419d6".
Proof. vm_compute. reflexivity. Qed.

Example md5_two_blocks :
  MD5.hexdigest
    "12345678901234567890123456789012345678901234567890123456789012345678901234567890"
  = "57edf4a22be3c955ac49da2e2107b67a".
Proof. vm_compute. reflexivity. Qed.

Example strip_example : Py.strip ("  ab c" +:+ newline) = "ab c".
Proof. reflexivity. Qed.

Example split_example :
  Py.split (" a/b " +:+ newline +:+ "c" +:+ tab +:+ newline +:+ "dd" +:+ newline)
  = ["a/b"; "c"; "dd"].
Proof. reflexivity. Qed.

Example split_on_example : Py.split_on "/" "a//b/" = ["a"; ""; "b"; ""].
Proof. reflexivity. Qed.

Example split_on_empty : Py.split_on "/" "" = [""].
Proof. reflexivity. Qed.

Example int_examples :
  Py.int "524288" = Some 524288 ∧ Py.int "-7" = Some (-7) ∧
  Py.int " +12 " = Some 12 ∧ Py.int "" = None ∧ Py.int "12a" = None ∧
  Py.int "-" = None.
Proof. repeat split; reflexivity. Qed.

Example re_search_example :
  Py.re_search "ETag:" Py.isword
    ("  Content Length: 10" +:+ newline +:+ "  ETag:   ABCdef_09-rest")
  = Some "ABCdef_09".
Proof. reflexivity. Qed.

Example re_search_none :
  Py.re_search "ETag:" Py.isword "ETag:abc ETag: -" = None.
Proof. reflexivity. Qed.

(** ** Facts about the string primitives *)

Section string_facts.

Lemma app_empty (s : string) : "" +:+ s = s.
Proof. reflexivity. Qed.

Lemma app_String (c : ascii) (a b : string) :
  String c a +:+ b = String c (a +:+ b).
Proof. reflexivity. Qed.

Lemma is_empty_true (s : string) : Py.is_empty s = true ↔ s = "".
Proof. destruct s; simpl; split; congruence. Qed.

Lemma is_empty_false (s : string) : Py.is_empty s = false ↔ s ≠ "".
Proof. destruct s; simpl; split; congruence. Qed.

Lemma isdigit_isword (c : ascii) : Py.isdigit c = true → Py.isword c = true.
Proof. unfold Py.isword. intros ->. reflexivity. Qed.

Lemma isword_not_space (c : ascii) :
  Py.isword c = true → Py.isspace c = false.
Proof.
  destruct c as [[] [] [] [] [] [] [] []]; vm_compute; congruence.
Qed.

Lemma isdigit_not_space (c : ascii) :
  Py.isdigit c = true → Py.isspace c = false.
Proof. intros H. apply isword_not_space, isdigit_isword, H. Qed.

Lemma isnonspace_not_space (c : ascii) :
  Py.isnonspace c = true → Py.isspace c = false.
Proof. unfold Py.isnonspace. destruct (Py.isspace c); simpl; congruence. Qed.

Lemma all_impl (p q : ascii → bool) (s : string) :
  (∀ c, p c = true → q c = true) → Py.all p s = true → Py.all q s = true.
Proof.
  intros Hpq. induction s as [| c s IH]; simpl; [done |].
  intros [Hc Hs]%andb_prop. rewrite (Hpq _ Hc), (IH Hs). reflexivity.
Qed.

(** [span] splits its argument, and its first part is in the class. *)
Lemma span_spec (p : ascii → bool) (s a b : string) :
  Py.span p s = (a, b) →
  s = a +:+ b ∧ Py.all p a = true ∧
  match b with EmptyString => True | String c _ => p c = false end.
Proof.
  revert a b. induction s as [| c s IH]; simpl; intros a b H.
  - injection H as <- <-. done.
  - destruct (p c) eqn:Hc.
    + destruct (Py.span p s) as [a' b'] eqn:Hs.
      injection H as <- <-.
      destruct (IH a' b' eq_refl) as (-> & Ha & Hb).
      simpl. rewrite Hc, Ha. done.
    + injection H as <- <-. simpl. rewrite Hc. done.
Qed.

Lemma strip_prefix_spec (lit s r : string) :
  Py.strip_prefix lit s = Some r ↔ s = lit +:+ r.
Proof.
  revert s. induction lit as [| a lit IH]; intros s; simpl.
  - split; [intros [= ->] | intros ->]; done.
  - destruct s as [| b s]; [split; intros [=] |].
    destruct (Ascii.eqb_spec a b) as [-> | Hne].
    + rewrite IH. split; [intros -> | intros [= ->]]; done.
    + split; [intros [=] | intros [= ? ?]; done].
Qed.

(** Stripping leaves a string without whitespace as it is. *)
Lemma lstrip_id (s : string) :
  Py.all Py.isnonspace s = true → Py.lstrip s = s.
Proof.
  destruct s as [| c s]; simpl; [done |].
  intros [Hc _]%andb_prop. rewrite (isnonspace_not_space _ Hc). done.
Qed.

Lemma rstrip_id (s : string) :
  Py.all Py.isnonspace s = true → Py.rstrip s = s.
Proof.
  induction s as [| c s IH]; simpl; [done |].
  intros [Hc Hs]%andb_prop. rewrite (IH Hs).
  destruct s; [| done].
  rewrite (isnonspace_not_space _ Hc). done.
Qed.

Lemma strip_id (s : string) :
  Py.all Py.isnonspace s = true → Py.strip s = s.
Proof.
  intros H. unfold Py.strip. rewrite (lstrip_id _ H). apply rstrip_id, H.
Qed.

End string_facts.

(** ** The regular-expression searches *)

Section re_search_facts.

Variables (lit : string) (cls : ascii → bool).

Lemma match_here_sound (s g : string) :
  Py.match_here lit cls s = Some g → match_shape lit cls s g.
Proof.
  unfold Py.match_here.
  destruct (Py.strip_prefix lit s) as [r |] eqn:Hlit; [| done].
  apply strip_prefix_spec in Hlit as ->.
  destruct (Py.span Py.isspace r) as [ws r'] eqn:Hws.
  apply span_spec in Hws as (-> & Hws & _).
  destruct (Py.is_empty ws) eqn:Hne; [done |].
  destruct (Py.span cls r') as [g' rest] eqn:Hg.
  apply span_spec in Hg as (-> & Hg & Hrest).
  destruct (Py.is_empty g') eqn:Hne'; [done |].
  intros [= <-]. exists ws, rest.
  by rewrite <- !is_empty_false.
Qed.

Lemma re_search_sound (s g : string) :
  Py.re_search lit cls s = Some g →
  ∃ pre s', s = pre +:+ s' ∧ match_shape lit cls s' g.
Proof.
  induction s as [| c s IH]; simpl.
  - destruct (Py.match_here lit cls "") eqn:Hm; [| done].
    intros [= <-]. exists "", "". split; [done |].
    by apply match_here_sound.
  - destruct (Py.match_here lit cls (String c s)) eqn:Hm.
    + intros [= <-]. exists "", (String c s). split; [done |].
      by apply match_here_sound.
    + intros (pre & s' & -> & Hs')%IH.
      exists (String c pre), s'. done.
Qed.

(** What the search returns is a non-empty string of the class. *)
Lemma re_search_group (s g : string) :
  Py.re_search lit cls s = Some g → g ≠ "" ∧ Py.all cls g = true.
Proof.
  intros (pre & s' & _ & ws & rest & _ & _ & _ & Hne & Hall & _)%re_search_sound.
  done.
Qed.

(** When the class excludes whitespace, the greedy scan finds every
    match: no backtracking into the whitespace run is needed. *)
Hypothesis cls_not_space : ∀ c, cls c = true → Py.isspace c = false.

Lemma span_app_stop (p : ascii → bool) (a b : string) :
  Py.all p a = true →
  match b with EmptyString => True | String c _ => p c = false end →
  Py.span p (a +:+ b) = (a, b).
Proof.
  intros Ha Hb. induction a as [| c a IH];
    rewrite ?app_empty, ?app_String; simpl in *.
  - destruct b as [| c b]; simpl; [done |]. by rewrite Hb.
  - apply andb_prop in Ha as [Hc Ha]. by rewrite Hc, (IH Ha).
Qed.

Lemma span_app_more (p : ascii → bool) (a b : string) :
  Py.all p a = true → ∃ a' b', Py.span p (a +:+ b) = (a +:+ a', b').
Proof.
  intros Ha. induction a as [| c a IH];
    rewrite ?app_empty, ?app_String; simpl in *.
  - destruct (Py.span p b) as [a' b']. exists a', b'. reflexivity.
  - apply andb_prop in Ha as [Hc Ha]. rewrite Hc.
    destruct (IH Ha) as (a' & b' & ->). exists a', b'. reflexivity.
Qed.

Lemma match_here_complete (ws g rest : string) :
  ws ≠ "" → Py.all Py.isspace ws = true →
  g ≠ "" → Py.all cls g = true →
  is_Some (Py.match_here lit cls (lit +:+ ws +:+ g +:+ rest)).
Proof.
  intros Hws Hsp Hg Hcls. unfold Py.match_here.
  rewrite (proj2 (strip_prefix_spec lit _ (ws +:+ g +:+ rest)) eq_refl).
  rewrite (span_app_stop Py.isspace ws (g +:+ rest) Hsp).
  - apply is_empty_false in Hws as ->.
    destruct (span_app_more cls g rest Hcls) as (a' & b' & ->).
    destruct g; [done |]. by eexists.
  - destruct g as [| c g]; [done |]. simpl in *.
    apply andb_prop in Hcls as [Hc _]. by apply cls_not_space.
Qed.

Lemma re_search_complete (pre ws g rest : string) :
  ws ≠ "" → Py.all Py.isspace ws = true →
  g ≠ "" → Py.all cls g = true →
  is_Some (Py.re_search lit cls (pre +:+ lit +:+ ws +:+ g +:+ rest)).
Proof.
  intros Hws Hsp Hg Hcls.
  pose proof (match_here_complete ws g rest Hws Hsp Hg Hcls) as Hm.
  induction pre as [| c pre IH].
  - simpl. destruct (lit +:+ ws +:+ g +:+ rest) eqn:E; simpl;
      destruct Hm as [x ->]; by eexists.
  - simpl.
    destruct (Py.match_here lit cls (String c (pre +:+ lit +:+ ws +:+ g +:+ rest)));
      [by eexists | done].
Qed.

End re_search_facts.

(** ** What the searches of the module return *)

Lemma digits_value_total (s : string) (acc : Z) :
  Py.all Py.isdigit s = true → 0 ≤ acc →
  ∃ n, Py.digits_value acc s = Some n ∧ 0 ≤ n.
Proof.
  revert acc. induction s as [| c s IH]; simpl; intros acc Hs Hacc.
  - by exists acc.
  - apply andb_prop in Hs as [Hc Hs]. rewrite Hc.
    apply IH; [done |].
    unfold Py.isdigit in Hc. apply andb_prop in Hc as [Hlo _].
    apply N.leb_le in Hlo. lia.
Qed.

(** The group of [Content Length:\s+(\d+)] always converts with [int], to a
    non-negative number. *)
Lemma content_length_int (stat group1 : string) :
  content_length_search stat = Some group1 →
  ∃ n, Py.int group1 = Some n ∧ 0 ≤ n.
Proof.
  intros [Hne Hall]%re_search_group.
  unfold Py.int.
  rewrite strip_id by (eapply all_impl; [| exact Hall];
    intros c Hc; unfold Py.isnonspace; by rewrite isdigit_not_space).
  destruct group1 as [| c s]; [done |].
  assert (Hc : Py.isdigit c = true) by (simpl in Hall; by apply andb_prop in Hall as [? _]).
  assert (Ascii.eqb c "-" = false ∧ Ascii.eqb c "+" = false) as [-> ->].
  { split; apply Ascii.eqb_neq; intros ->; vm_compute in Hc; congruence. }
  unfold Py.unsigned_value. simpl Py.is_empty. cbv iota.
  by apply digits_value_total.
Qed.

(** The group of [ETag:\s+(\w+)] carries no whitespace: [.strip()] returns
    it unchanged. *)
Lemma etag_strip (stat group1 : string) :
  etag_search stat = Some group1 → Py.strip group1 = group1.
Proof.
  intros [_ Hall]%re_search_group. apply strip_id.
  eapply all_impl; [| exact Hall].
  intros c Hc. unfold Py.isnonspace. by rewrite isword_not_space.
Qed.

(** ** What [hexdigest] returns *)

Lemma hex_digit_lower_hex (n : Z) : is_lower_hex (MD5.hex_digit n) = true.
Proof.
  unfold MD5.hex_digit. generalize (Z.to_nat n). intros k.
  do 16 (destruct k as [| k]; [reflexivity |]). destruct k; reflexivity.
Qed.

Lemma hex_of_bytes_lower_hex (bs : list Z) :
  Py.all is_lower_hex (MD5.hex_of_bytes bs) = true.
Proof.
  induction bs as [| b bs IH]; simpl; [done |].
  by rewrite !hex_digit_lower_hex, IH.
Qed.

Lemma hexdigest_lower_hex (data : string) :
  Py.all is_lower_hex (MD5.hexdigest data) = true.
Proof. apply hex_of_bytes_lower_hex. Qed.

Lemma hexdigest_length (data : string) :
  String.length (MD5.hexdigest data) = 32%nat.
Proof.
  unfold MD5.hexdigest, MD5.digest.
  destruct (MD5.blocks _ _ _) as [[[a b] c] d]. reflexivity.
Qed.

Lemma lower_hex_not_space (c : ascii) :
  is_lower_hex c = true → Py.isnonspace c = true.
Proof. destruct c as [[] [] [] [] [] [] [] []]; vm_compute; congruence. Qed.

(** [.hexdigest().strip()] is [.hexdigest()]. *)
Lemma hexdigest_strip (data : string) :
  Py.strip (MD5.hexdigest data) = MD5.hexdigest data.
Proof.
  apply strip_id. eapply all_impl; [| apply hexdigest_lower_hex].
  apply lower_hex_not_space.
Qed.

(** ** Chunking the local file *)

Section chunking.

Local Open Scope nat_scope.


Lemma str_drop_length (n : nat) (s : string) :
  String.length (str_drop n s) = String.length s - n.
Proof.
  revert s. induction n as [| n IH]; intros [| c s]; simpl; auto.
Qed.


Lemma str_drop_drop (n m : nat) (s : string) :
  str_drop n (str_drop m s) = str_drop (n + m) s.
Proof.
  revert s. induction m as [| m IH]; intros s.
  - by rewrite Nat.add_0_r.
  - rewrite Nat.add_succ_r. destruct s as [| c s]; simpl.
    + by destruct n.
    + apply IH.
Qed.

Lemma ceil_div_0 (size : nat) : 0 < size → ceil_div 0 size = 0.
Proof. intros H. unfold ceil_div. apply Nat.div_small. lia. Qed.

Lemma ceil_div_step (n size : nat) :
  0 < n → 0 < size → ceil_div n size = S (ceil_div (n - size) size).
Proof.
  intros Hn Hs. unfold ceil_div.
  destruct (Nat.le_gt_cases n size) as [Hle | Hgt].
  - replace (n - size) with 0 by lia.
    rewrite (Nat.div_small (0 + size - 1)) by lia.
    symmetry. apply (Nat.div_unique _ _ 1 (n - 1)); lia.
  - replace (n + size - 1) with ((n - size + size - 1) + 1 * size) by lia.
    rewrite Nat.div_add by lia. lia.
Qed.

Lemma ceil_div_le (n size : nat) : 0 < size → ceil_div n size ≤ n.
Proof.
  intros Hs. unfold ceil_div.
  destruct n as [| n]; [rewrite Nat.div_small; lia |].
  apply Nat.lt_succ_r, Nat.Div0.div_lt_upper_bound; nia.
Qed.

Lemma pieces_empty (size : nat) : 0 < size → pieces size "" = [].
Proof. intros H. unfold pieces. simpl String.length. by rewrite ceil_div_0. Qed.

Lemma pieces_cons (size : nat) (data : string) :
  0 < size → data ≠ "" →
  pieces size data = str_take size data :: pieces size (str_drop size data).
Proof.
  intros Hs Hd. unfold pieces.
  assert (0 < String.length data) by (destruct data; simpl; [done | lia]).
  rewrite (ceil_div_step (String.length data)) by done.
  rewrite str_drop_length. cbn [seq fmap list_fmap].
  f_equal. rewrite <- seq_shift, <- list_fmap_compose.
  apply list_fmap_ext. intros _ i _. simpl.
  by rewrite str_drop_drop, Nat.add_comm.
Qed.

End chunking.

Section iter_read_facts.

Local Open Scope nat_scope.

Lemma file_read_pos (w : world) (size : Z) (unread : string) :
  (0 ≤ size)%Z → read_size_ok w size →
  file_read w size unread
  = Return (str_take (Z.to_nat size) unread, str_drop (Z.to_nat size) unread).
Proof.
  intros H [[Hlo Hhi] Hmem]. unfold file_read.
  destruct (Z.ltb_spec size (- Z.of_N (maxint w) - 1)); [lia |].
  destruct (Z.ltb_spec (Z.of_N (maxint w)) size); [lia |]. cbn [orb].
  destruct (Z.ltb_spec size 0); [lia |].
  destruct (Z.ltb_spec (Z.of_N (memory w)) size); [lia | done].
Qed.

Lemma file_read_neg (w : world) (size : Z) (unread : string) :
  (size < 0)%Z → read_size_ok w size →
  file_read w size unread = Return (unread, "").
Proof.
  intros H [[Hlo Hhi] Hmem]. unfold file_read.
  destruct (Z.ltb_spec size (- Z.of_N (maxint w) - 1)); [lia |].
  destruct (Z.ltb_spec (Z.of_N (maxint w)) size); [lia |]. cbn [orb].
  destruct (Z.ltb_spec size 0); [done | lia].
Qed.

(** A size outside the range of a C [long] *)
Lemma file_read_overflow (w : world) (size : Z) (unread : string) :
  (size < - Z.of_N (maxint w) - 1 ∨ Z.of_N (maxint w) < size)%Z →
  file_read w size unread
  = Raise (Exn OverflowError "Python int too large to convert to C long").
Proof.
  intros H. unfold file_read.
  destruct (Z.ltb_spec size (- Z.of_N (maxint w) - 1)); [done |].
  destruct (Z.ltb_spec (Z.of_N (maxint w)) size); [done | lia].
Qed.

(** A size for which no buffer can be allocated *)
Lemma file_read_memory (w : world) (size : Z) (unread : string) :
  (size ≤ Z.of_N (maxint w))%Z → (Z.of_N (memory w) < size)%Z →
  file_read w size unread = Raise (Exn MemoryError "").
Proof.
  intros Hhi Hmem. unfold file_read.
  destruct (Z.ltb_spec size (- Z.of_N (maxint w) - 1)); [lia |].
  destruct (Z.ltb_spec (Z.of_N (maxint w)) size); [lia |]. cbn [orb].
  destruct (Z.ltb_spec size 0); [lia |].
  destruct (Z.ltb_spec (Z.of_N (memory w)) size); [done | lia].
Qed.

(** The loop yields the pieces of the file, and needs one call of [read]
    per piece and a last one that returns the empty string. *)
Lemma iter_read_pieces (fuel size : nat) (w : world) (data : string) :
  0 < size → read_size_ok w (Z.of_nat size) →
  ceil_div (String.length data) size < fuel →
  iter_read fuel w (Z.of_nat size) data = Return (pieces size data).
Proof.
  intros Hs Hok. revert data.
  induction fuel as [| fuel IH]; intros data Hfuel; [lia |].
  simpl. rewrite file_read_pos by (done || lia). rewrite Nat2Z.id.
  destruct data as [| c data].
  - destruct size; [lia |]. simpl. by rewrite pieces_empty by lia.
  - rewrite (pieces_cons size (String c data)) by done.
    destruct size as [| size]; [lia |].
    cbn [str_take Py.is_empty].
    rewrite IH; [done |].
    rewrite (ceil_div_step (String.length (String c data))) in Hfuel
      by (simpl; lia).
    rewrite str_drop_length. lia.
Qed.


(** The first call of [read] raises for a size that is out of range or
    too large for the memory: the loop yields no chunk. *)
Lemma iter_read_overflow (fuel : nat) (w : world) (size : Z) (data : string) :
  (size < - Z.of_N (maxint w) - 1 ∨ Z.of_N (maxint w) < size)%Z →
  iter_read (S fuel) w size data
  = Raise (Exn OverflowError "Python int too large to convert to C long").
Proof. intros H. simpl. by rewrite file_read_overflow. Qed.

Lemma iter_read_memory (fuel : nat) (w : world) (size : Z) (data : string) :
  (size ≤ Z.of_N (maxint w))%Z → (Z.of_N (memory w) < size)%Z →
  iter_read (S fuel) w size data = Raise (Exn MemoryError "").
Proof. intros H1 H2. simpl. by rewrite file_read_memory. Qed.

(** A size of zero reads nothing. *)
Lemma iter_read_zero (fuel : nat) (w : world) (data : string) :
  iter_read (S fuel) w 0 data = Return [].
Proof.
  simpl. rewrite file_read_pos; [by destruct data | lia |].
  unfold read_size_ok. lia.
Qed.

(** A negative size reads the whole file at once. *)
Lemma iter_read_negative (w : world) (size : Z) (data : string) :
  (size < 0)%Z → read_size_ok w size →
  iter_read (S (String.length data)) w size data
  = Return (if Py.is_empty data then [] else [data]).
Proof.
  intros Hneg Hok. simpl. rewrite file_read_neg by done.
  destruct data as [| c data]; [done |]. cbn [Py.is_empty String.length].
  simpl. by rewrite file_read_neg by done.
Qed.

(** With the fuel that [md5_check] gives it the loop always ends, whatever
    the size. *)
Lemma iter_read_total (w : world) (size : Z) (data : string) :
  iter_read (S (String.length data)) w size data ≠ Diverge.
Proof.
  destruct (Z.lt_ge_cases size (- Z.of_N (maxint w) - 1)%Z) as [Hlo | Hlo];
    [by rewrite iter_read_overflow by lia |].
  destruct (Z.lt_ge_cases (Z.of_N (maxint w)) size) as [Hhi | Hhi];
    [by rewrite iter_read_overflow by lia |].
  destruct (Z.lt_trichotomy size 0) as [Hneg | [-> | Hpos]].
  - rewrite iter_read_negative; [done | done |]. unfold read_size_ok. lia.
  - by rewrite iter_read_zero.
  - destruct (Z.lt_ge_cases (Z.of_N (memory w)) size) as [Hmem | Hmem];
      [by rewrite iter_read_memory by lia |].
    rewrite <- (Z2Nat.id size) by lia.
    rewrite iter_read_pieces; [done | lia | |].
    + rewrite Z2Nat.id by lia. unfold read_size_ok. lia.
    + apply Nat.lt_succ_r, ceil_div_le. lia.
Qed.

(** The loop sees the world through its two limits only. *)
Lemma iter_read_limits (fuel : nat) (w w' : world) (size : Z) (data : string) :
  maxint w = maxint w' → memory w = memory w' →
  iter_read fuel w size data = iter_read fuel w' size data.
Proof.
  intros Hmx Hmem. revert data.
  induction fuel as [| fuel IH]; intros data; [done |].
  simpl. unfold file_read. rewrite Hmx, Hmem.
  destruct (_ || _); [done |].
  destruct (size <? 0)%Z.
  - destruct (Py.is_empty data); [done |]. by rewrite IH.
  - destruct (Z.of_N (memory w') <? size)%Z; [done |].
    destruct (Py.is_empty _); [done |]. by rewrite IH.
Qed.

(** The loop for a positive size, with the fuel that [md5_check] gives
    it. *)
Lemma iter_read_positive (w : world) (size : Z) (data : string) :
  (1 ≤ size)%Z →
  iter_read (S (String.length data)) w size data
  = if (Z.of_N (maxint w) <? size)%Z then
      Raise (Exn OverflowError "Python int too large to convert to C long")
    else if (Z.of_N (memory w) <? size)%Z then Raise (Exn MemoryError "")
    else Return (pieces (Z.to_nat size) data).
Proof.
  intros Hpos.
  destruct (Z.ltb_spec (Z.of_N (maxint w)) size) as [Hhi | Hhi];
    [by rewrite iter_read_overflow by lia |].
  destruct (Z.ltb_spec (Z.of_N (memory w)) size) as [Hmem | Hmem];
    [by rewrite iter_read_memory by lia |].
  rewrite <- (Z2Nat.id size) at 1 by lia.
  rewrite iter_read_pieces; [done | lia | |].
  - rewrite Z2Nat.id by lia. unfold read_size_ok. lia.
  - apply Nat.lt_succ_r, ceil_div_le. lia.
Qed.




End iter_read_facts.

(** ** Properties of the checks *)

Lemma check_output_ok (w : world) (cmd out : string) (tr : trace) :
  shell w cmd = Some out →
  check_output w cmd tr = (Return out, (tr ++ [cmd])%list).
Proof. unfold check_output. by intros ->. Qed.

(** [filesize_check] and [md5_check] start with the same command. *)
Lemma filesize_check_trace (w : world) (lf oc on : string) (tr : trace) :
  snd (filesize_check w lf oc on tr) = (tr ++ [swift_stat oc on])%list.
Proof.
  unfold filesize_check, bind, check_output.
  destruct (shell w (swift_stat oc on)) as [stat |]; [| done].
  destruct (Py.is_empty stat); [done |].
  destruct (content_length_search stat) as [g |]; [| done].
  unfold int_of. destruct (Py.int g); [| done]. simpl.
  unfold getsize. by destruct (files w lf).
Qed.

(** An empty local file matches a reported size of 0. *)
Example filesize_check_empty_file :
  run (filesize_check (plain_world "Content Length: 0" "") "local" "cont" "obj")
  = (Return true, ["swift stat cont obj"]).
Proof. reflexivity. Qed.

Example filesize_check_scenario_B :
  run (filesize_check (plain_world "Content Length: 9" "0123456789")
         "local" "cont" "obj")
  = (Return false, ["swift stat cont obj"]).
Proof. reflexivity. Qed.

(** C5.  [check_integrity] is the short-circuit conjunction of the two
    checks.  When the size check returns false, so does [check_integrity],
    having run the one command of the size check and nothing of the digest
    check; when the size check returns true the outcome is that of the
    digest check, run next; when the size check raises, so does
    [check_integrity]. *)
Theorem check_integrity_short_circuit (w : world) (lf oc on : string)
    (ss : Z) (sc : option string) (tr : trace) :
  match filesize_check w lf oc on tr with
  | (Return false, tr') =>
      check_integrity w lf oc on ss sc tr = (Return false, tr') ∧
      tr' = (tr ++ [swift_stat oc on])%list
  | (Return true, tr') =>
      check_integrity w lf oc on ss sc tr = md5_check w lf oc on ss sc tr'
  | (Raise e, tr') => check_integrity w lf oc on ss sc tr = (Raise e, tr')
  | (Diverge, tr') => check_integrity w lf oc on ss sc tr = (Diverge, tr')
  end.
Proof.
  pose proof (filesize_check_trace w lf oc on tr) as Htr.
  unfold check_integrity, bind.
  destruct (filesize_check w lf oc on tr) as [[[] | e |] tr']; simpl in *; done.
Qed.

(** Scenario B of the specification: 10 local bytes against a reported
    size of 9.  Only the command of the size check is run. *)
Example check_integrity_scenario_B :
  run (check_integrity (plain_world "Content Length: 9" "0123456789")
         "local" "cont" "obj" 0 None)
  = (Return false, ["swift stat cont obj"]).
Proof. reflexivity. Qed.

(** Scenario A: sizes and digests agree. *)
Example check_integrity_scenario_A :
  run (check_integrity
         (plain_world
            ("Content Length: 10" +:+ newline
             +:+ "ETag: 781e5e245d69b566979b86e28d23f2c7")
            "0123456789")
         "local" "cont" "obj" 0 None)
  = (Return true, ["swift stat cont obj"; "swift stat cont obj"]).
Proof. vm_compute. reflexivity. Qed.

(** C7.  For a record without manifest and without ETag, [md5_check]
    raises [AttributeError]; it does not return a boolean.  When the record
    is not empty the error is the one on the missing ETag. *)
Theorem md5_check_no_manifest_no_etag (w : world) (lf oc on stat : string)
    (ss : Z) (sc : option string) (tr : trace) :
  shell w (swift_stat oc on) = Some stat →
  manifest_search stat = None →
  etag_search stat = None →
  (∃ msg,
     md5_check w lf oc on ss sc tr
     = (Raise (Exn AttributeError msg), (tr ++ [swift_stat oc on])%list) ∧
     (stat ≠ "" →
      msg = "ETag not found for object " +:+ on +:+ " in swift stat")) ∧
  ∀ b, fst (md5_check w lf oc on ss sc tr) ≠ Return b.
Proof.
  intros Hstat Hman Hetag.
  unfold md5_check, bind. rewrite (check_output_ok _ _ _ _ Hstat).
  destruct stat as [| c stat]; cbn [Py.is_empty].
  - split; [| done]. by eexists.
  - rewrite Hman, Hetag. split; [| done]. by eexists.
Qed.

Lemma md5_check_no_manifest_no_etag_witness :
  (∃ msg,
     md5_check (plain_world "Content Length: 10" "0123456789")
       "local" "cont" "obj" 0 None []
     = (Raise (Exn AttributeError msg), ["swift stat cont obj"]) ∧
     ("Content Length: 10" ≠ "" →
      msg = "ETag not found for object obj in swift stat")) ∧
  ∀ b, fst (md5_check (plain_world "Content Length: 10" "0123456789")
              "local" "cont" "obj" 0 None []) ≠ Return b.
Proof.
  apply (md5_check_no_manifest_no_etag
           (plain_world "Content Length: 10" "0123456789")
           "local" "cont" "obj" "Content Length: 10" 0 None []);
    reflexivity.
Defined.

(** C8.  On an empty output of [swift stat] the two checks raise with the
    same message, ['Swift stat returned nothing'], for the same condition,
    but not the same error: [filesize_check] raises [ValueError] and
    [md5_check] raises [AttributeError], so that no error is raised by
    both. *)
Theorem empty_stat_raises (w : world) (lf oc on : string)
    (ss : Z) (sc : option string) (tr : trace) :
  shell w (swift_stat oc on) = Some "" →
  filesize_check w lf oc on tr
  = (Raise (Exn ValueError "Swift stat returned nothing"),
     (tr ++ [swift_stat oc on])%list) ∧
  md5_check w lf oc on ss sc tr
  = (Raise (Exn AttributeError "Swift stat returned nothing"),
     (tr ++ [swift_stat oc on])%list) ∧
  ¬ ∃ e,
      fst (filesize_check w lf oc on tr) = Raise e ∧
      fst (md5_check w lf oc on ss sc tr) = Raise e.
Proof.
  intros Hstat. unfold filesize_check, md5_check, bind.
  rewrite (check_output_ok _ _ _ _ Hstat). cbn.
  split; [done |]. split; [done |].
  intros (e & H1 & H2). congruence.
Qed.

Lemma empty_stat_raises_witness :
  filesize_check (plain_world "" "0123456789") "local" "cont" "obj" []
  = (Raise (Exn ValueError "Swift stat returned nothing"),
     ["swift stat cont obj"]) ∧
  md5_check (plain_world "" "0123456789") "local" "cont" "obj" 0 None []
  = (Raise (Exn AttributeError "Swift stat returned nothing"),
     ["swift stat cont obj"]) ∧
  ¬ ∃ e,
      fst (filesize_check (plain_world "" "0123456789")
             "local" "cont" "obj" []) = Raise e ∧
      fst (md5_check (plain_world "" "0123456789")
             "local" "cont" "obj" 0 None []) = Raise e.
Proof.
  apply (empty_stat_raises (plain_world "" "0123456789")
           "local" "cont" "obj" 0 None []).
  reflexivity.
Defined.

(** C8 on one input: the record is empty, the local file holds 10 bytes;
    the size check ends in [ValueError], the digest check in
    [AttributeError]. *)
Lemma empty_stat_not_same_error :
  shell (plain_world "" "0123456789") (swift_stat "cont" "obj") = Some "" ∧
  run (filesize_check (plain_world "" "0123456789") "local" "cont" "obj")
  = (Raise (Exn ValueError "Swift stat returned nothing"),
     ["swift stat cont obj"]) ∧
  run (md5_check (plain_world "" "0123456789") "local" "cont" "obj" 0 None)
  = (Raise (Exn AttributeError "Swift stat returned nothing"),
     ["swift stat cont obj"]) ∧
  ¬ ∃ e,
      fst (run (filesize_check (plain_world "" "0123456789")
                  "local" "cont" "obj")) = Raise e ∧
      fst (run (md5_check (plain_world "" "0123456789")
                  "local" "cont" "obj" 0 None)) = Raise e.
Proof.
  split; [reflexivity |]. split; [reflexivity |]. split; [reflexivity |].
  intros (e & H1 & H2). vm_compute in H1, H2. congruence.
Qed.

(** *** The non-segmented path *)

(** C2, as the code has it.  For a record without manifest and with an
    ETag, [md5_check] returns a boolean, which is true exactly when the
    hexadecimal digest of the whole local file (in lower case, as
    [hexdigest] prints it) is the very string captured after [ETag:]; the
    comparison distinguishes upper from lower case, and [strip] changes
    neither side. *)
Theorem md5_check_non_segmented (w : world) (lf oc on stat etag data : string)
    (ss : Z) (sc : option string) (tr : trace) :
  shell w (swift_stat oc on) = Some stat →
  manifest_search stat = None →
  etag_search stat = Some etag →
  files w lf = Some data →
  md5_check w lf oc on ss sc tr
  = (Return (bool_decide (MD5.hexdigest data = etag)),
     (tr ++ [swift_stat oc on])%list) ∧
  Py.strip etag = etag ∧
  Py.strip (MD5.hexdigest data) = MD5.hexdigest data.
Proof.
  intros Hstat Hman Hetag Hfile.
  split; [| split; [by eapply etag_strip | apply hexdigest_strip]].
  unfold md5_check, bind. rewrite (check_output_ok _ _ _ _ Hstat).
  destruct stat as [| c stat]; [done |]. cbn [Py.is_empty].
  rewrite Hman, Hetag. unfold open. rewrite Hfile. unfold ret.
  unfold read_all. cbn [fst].
  rewrite hexdigest_strip, (etag_strip _ _ Hetag).
  f_equal. f_equal.
  destruct (String.eqb_spec (MD5.hexdigest data) etag).
  - by rewrite bool_decide_eq_true_2.
  - by rewrite bool_decide_eq_false_2.
Qed.

Lemma md5_check_non_segmented_witness :
  md5_check (plain_world "ETag: 781e5e245d69b566979b86e28d23f2c7" "0123456789")
    "local" "cont" "obj" 0 None []
  = (Return (bool_decide (MD5.hexdigest "0123456789"
                          = "781e5e245d69b566979b86e28d23f2c7")),
     ["swift stat cont obj"]) ∧
  Py.strip "781e5e245d69b566979b86e28d23f2c7"
  = "781e5e245d69b566979b86e28d23f2c7" ∧
  Py.strip (MD5.hexdigest "0123456789") = MD5.hexdigest "0123456789".
Proof.
  apply (md5_check_non_segmented
           (plain_world "ETag: 781e5e245d69b566979b86e28d23f2c7" "0123456789")
           "local" "cont" "obj" "ETag: 781e5e245d69b566979b86e28d23f2c7"
           "781e5e245d69b566979b86e28d23f2c7" "0123456789" 0 None []);
    reflexivity.
Defined.

(** C2 as stated fails: an upper-case remote digest whose lower-case form
    is the digest of the local file makes [md5_check] return false. *)
Lemma md5_check_upper_case_etag :
  manifest_search "ETag: D41D8CD98F00B204E9800998ECF8427E" = None ∧
  etag_search "ETag: D41D8CD98F00B204E9800998ECF8427E"
  = Some "D41D8CD98F00B204E9800998ECF8427E" ∧
  lower (Py.strip "D41D8CD98F00B204E9800998ECF8427E")
  = lower (Py.strip (MD5.hexdigest "")) ∧
  run (md5_check (plain_world "ETag: D41D8CD98F00B204E9800998ECF8427E" "")
         "local" "cont" "obj" 0 None)
  = (Return false, ["swift stat cont obj"]).
Proof. repeat split; vm_compute; reflexivity. Qed.

(** *** The segmented path *)

Section segmented_path.

Variable w : world.

(** Finding the segment size runs no command. *)
Lemma segment_size_outcome (ss : Z) (segments : list string) (tr : trace) :
  segment_size_or_inferred ss segments tr
  = (fst (segment_size_or_inferred ss segments []), tr).
Proof.
  unfold segment_size_or_inferred. destruct (ss =? 0); [| done].
  unfold bind, item, int_of.
  destruct (segments !! 0%nat) as [first |]; [| done]. cbn.
  destruct (Py.index_from_end _ _) as [component |]; [| done]. cbn.
  by destruct (Py.int component).
Qed.

Lemma local_segment_md5s_set (chunks : list string) :
  local_segment_md5s chunks = list_to_set (MD5.hexdigest <$> chunks).
Proof.
  unfold local_segment_md5s.
  assert (H : ∀ acc : gset string,
            fold_left (λ acc local_seg,
                         acc ∪ {[ Py.strip (MD5.hexdigest local_seg) ]})
                      chunks acc
            = acc ∪ list_to_set (MD5.hexdigest <$> chunks)).
  { induction chunks as [| chunk chunks IH]; intros acc; simpl.
    - by rewrite (right_id_L ∅ (∪)).
    - by rewrite IH, hexdigest_strip, (assoc_L (∪)). }
  by rewrite H, (left_id_L ∅ (∪)).
Qed.

(** When every segment has an ETag, the comprehension runs one
    [swift stat] per segment and collects the ETags. *)
Lemma remote_segment_md5s_ok (c : string) (segments etags : list string)
    (acc : gset string) (tr : trace) :
  mapM (segment_etag w c) segments = Some etags →
  remote_segment_md5s w c segments acc tr
  = (Return (acc ∪ list_to_set etags),
     (tr ++ (swift_stat c <$> segments))%list).
Proof.
  intros H%mapM_Some_1. revert acc tr.
  induction H as [| segment etag segments etags Hseg _ IH]; intros acc tr.
  - simpl. unfold ret. by rewrite app_nil_r, (right_id_L ∅ (∪)).
  - cbn [remote_segment_md5s]. unfold bind.
    unfold segment_etag in Hseg.
    destruct (shell w (swift_stat c segment)) as [stat |] eqn:Hstat; [| done].
    simpl in Hseg. rewrite (check_output_ok _ _ _ _ Hstat), Hseg.
    rewrite IH, (etag_strip _ _ Hseg). cbn [fmap list_fmap].
    rewrite <- app_assoc. cbn [list_to_set foldr].
    by rewrite (assoc_L (∪)).
Qed.

(** Whatever happens, the comprehension queries a prefix of the listing,
    each segment in the given container. *)
Lemma remote_segment_md5s_trace (c : string) (segments : list string)
    (acc : gset string) (tr : trace) :
  ∃ queried,
    queried `prefix_of` segments ∧
    snd (remote_segment_md5s w c segments acc tr)
    = (tr ++ (swift_stat c <$> queried))%list.
Proof.
  revert acc tr. induction segments as [| segment segments IH]; intros acc tr.
  - exists []. split; [done |]. simpl. by rewrite app_nil_r.
  - cbn [remote_segment_md5s]. unfold bind, check_output.
    destruct (shell w (swift_stat c segment)) as [stat |].
    + destruct (etag_search stat) as [etag |].
      * destruct (IH (acc ∪ {[ Py.strip etag ]}) (tr ++ [swift_stat c segment])%list)
          as (queried & Hpre & ->).
        exists (segment :: queried). split; [by apply prefix_cons |].
        cbn [fmap list_fmap]. by rewrite <- app_assoc.
      * exists [segment]. split; [apply prefix_cons, prefix_nil | done].
    + exists [segment]. split; [apply prefix_cons, prefix_nil | done].
Qed.

End segmented_path.

(** The segmented path when every remote read succeeds: the commands are
    the stat of the object, the listing, and one stat per segment; the
    outcome is that of the chunking loop, run with the segment size, and
    when the loop returns, the comparison of two sets. *)
Lemma md5_check_segmented (w : world) (lf oc on stat m listing data : string)
    (etags : list string) (ss size : Z) (sc : option string) (tr : trace) :
  shell w (swift_stat oc on) = Some stat →
  manifest_search stat = Some m →
  shell w (swift_list (segment_container_or_default sc oc) on) = Some listing →
  mapM (segment_etag w (segment_container_or_default sc oc))
       (Py.split (Py.strip listing)) = Some etags →
  fst (segment_size_or_inferred ss (Py.split (Py.strip listing)) [])
  = Return size →
  files w lf = Some data →
  md5_check w lf oc on ss sc tr
  = (outcome_map
       (λ chunks,
          bool_decide
            ((list_to_set (MD5.hexdigest <$> chunks) : gset string)
             = list_to_set etags))
       (iter_read (S (String.length data)) w size data),
     (tr ++ [swift_stat oc on;
             swift_list (segment_container_or_default sc oc) on]
         ++ (swift_stat (segment_container_or_default sc oc)
               <$> Py.split (Py.strip listing)))%list).
Proof.
  intros Hstat Hman Hlist Hetags Hsize Hfile.
  unfold md5_check, bind. rewrite (check_output_ok _ _ _ _ Hstat).
  destruct stat as [| ch stat]; [done |]. cbn [Py.is_empty].
  rewrite Hman. cbv zeta. rewrite (check_output_ok _ _ _ _ Hlist).
  unfold try_except. rewrite (remote_segment_md5s_ok _ _ _ _ _ _ Hetags).
  rewrite segment_size_outcome, Hsize.
  unfold open. rewrite Hfile. unfold ret, lift.
  rewrite <- !app_assoc.
  destruct (iter_read (S (String.length data)) w size data) as [chunks | e |];
    [| done..].
  cbn [outcome_map]. by rewrite local_segment_md5s_set, (left_id_L ∅ (∪)).
Qed.




Example md5_check_scenario_C :
  fst (run (md5_check (segmented_world scenario_C_segments "aaaabbbbcc")
              "local" "cont" "obj" 0 None)) = Return true ∧
  fst (run (md5_check (segmented_world scenario_C_segments "aaaabxbbcc")
              "local" "cont" "obj" 0 None)) = Return false.
Proof. split; vm_compute; reflexivity. Qed.

(** C1.  The docstring of [md5_check] says that the digest of each
    chunk is compared with the ETag of the respective segment, so that a
    single differing byte in a chunk is found.  The code compares sets
    instead, and misses some: the object was uploaded as ["aaabaa"] in
    segments of 2 bytes, the local file ["aaabab"] differs from it in its
    last byte, the digest of its third chunk is not the ETag of the third
    segment, and [md5_check] returns true, because that chunk has the
    digest of the second segment. *)
Lemma md5_check_misses_single_byte :
  snd <$> [ ("obj/1487100000.00/6/2/00000000", "aa");
            ("obj/1487100000.00/6/2/00000001", "ab");
            ("obj/1487100000.00/6/2/00000002", "aa") ]
  = pieces 2 "aaabaa" ∧
  differ_in_one_byte "aaabaa" "aaabab" ∧
  pieces 2 "aaabab" = ["aa"; "ab"; "ab"] ∧
  MD5.hexdigest <$> pieces 2 "aaabab" ≠ MD5.hexdigest <$> pieces 2 "aaabaa" ∧
  run (md5_check
         (segmented_world
            [ ("obj/1487100000.00/6/2/00000000", "aa");
              ("obj/1487100000.00/6/2/00000001", "ab");
              ("obj/1487100000.00/6/2/00000002", "aa") ]
            "aaabab")
         "local" "cont" "obj" 0 None)
  = (Return true,
     [ "swift stat cont obj";
       "swift list cont_segments --prefix obj";
       "swift stat cont_segments obj/1487100000.00/6/2/00000000";
       "swift stat cont_segments obj/1487100000.00/6/2/00000001";
       "swift stat cont_segments obj/1487100000.00/6/2/00000002" ]).
Proof.
  split; [reflexivity |]. split.
  - split; [reflexivity |]. exists 5%nat. split; [by vm_compute |].
    intros j Hj. do 6 (destruct j as [| j]; [done |]). reflexivity.
  - split; [reflexivity |]. split; [| vm_compute; reflexivity].
    vm_compute. discriminate.
Qed.


Example inferred_size_524288 :
  fst (segment_size_or_inferred 0 (fst <$> inferred_size_segments) [])
  = Return 524288 ∧
  fst (segment_size_or_inferred 4 (fst <$> inferred_size_segments) [])
  = Return 4.
Proof. split; reflexivity. Qed.

(** With the inferred size the whole file is one chunk and the digests
    agree; with an explicit size of 4 the file is cut in three and they do
    not. *)
Example inferred_size_md5_check :
  fst (run (md5_check (segmented_world inferred_size_segments "aaaabbbbcc")
              "local" "cont" "obj" 0 None)) = Return true ∧
  fst (run (md5_check (segmented_world inferred_size_segments "aaaabbbbcc")
              "local" "cont" "obj" 4 None)) = Return false.
Proof. split; vm_compute; reflexivity. Qed.


(** The chunks that are read with the inferred size and with the given
    size, and with a given size that [read] refuses. *)
Example effective_size_chunks :
  iter_read (S (String.length "aaaabbbbcc"))
    (segmented_world inferred_size_segments "aaaabbbbcc") 524288 "aaaabbbbcc"
  = Return ["aaaabbbbcc"] ∧
  iter_read (S (String.length "aaaabbbbcc"))
    (segmented_world inferred_size_segments "aaaabbbbcc") 4 "aaaabbbbcc"
  = Return ["aaaa"; "bbbb"; "cc"] ∧
  iter_read (S (String.length "aaaabbbbcc"))
    (segmented_world inferred_size_segments "aaaabbbbcc")
    100000000000000000000 "aaaabbbbcc"
  = Raise (Exn OverflowError "Python int too large to convert to C long").
Proof. repeat split; vm_compute; reflexivity. Qed.

(** An empty string given as [segment_container] is false in Python: the
    default container is used. *)
Lemma segment_container_empty_string (oc : string) :
  segment_container_or_default (Some "") oc = oc +:+ "_segments".
Proof. reflexivity. Qed.

(** C6, as the code has it.  In the segmented path the listing and every
    stat of a segment are addressed to the container given as
    [segment_container] when it is a non-empty string; when none is given,
    and also when the empty string is given, they are addressed to the
    container of the object with [_segments] appended. *)
Theorem md5_check_segment_container (w : world) (lf oc on stat m c : string)
    (ss : Z) (sc : option string) (tr : trace) :
  shell w (swift_stat oc on) = Some stat →
  manifest_search stat = Some m →
  (sc = Some c ∧ c ≠ "") ∨
  ((sc = None ∨ sc = Some "") ∧ c = oc +:+ "_segments") →
  ∃ queried,
    snd (md5_check w lf oc on ss sc tr)
    = (tr ++ [swift_stat oc on; swift_list c on]
          ++ (swift_stat c <$> queried))%list ∧
    ∀ listing,
      shell w (swift_list c on) = Some listing →
      queried `prefix_of` Py.split (Py.strip listing).
Proof.
  intros Hstat Hman Hsc.
  assert (Hc : segment_container_or_default sc oc = c).
  { destruct Hsc as [[-> Hne] | [[-> | ->] ->]]; [| done..].
    simpl. by destruct c. }
  unfold md5_check, bind. rewrite (check_output_ok _ _ _ _ Hstat).
  destruct stat as [| ch stat]; [done |]. cbn [Py.is_empty].
  rewrite Hman. cbv zeta. rewrite Hc. unfold check_output at 1.
  destruct (shell w (swift_list c on)) as [listing |] eqn:Hlist.
  - destruct (remote_segment_md5s_trace w c (Py.split (Py.strip listing)) ∅
                ((tr ++ [swift_stat oc on]) ++ [swift_list c on])%list)
      as (queried & Hpre & Htr).
    exists queried. split; [| by intros ? [= <-]].
    unfold try_except.
    destruct (remote_segment_md5s w c _ ∅ _) as [[remote | [cls msg] |] tr'];
      cbn [snd] in Htr; subst tr'.
    + rewrite segment_size_outcome.
      destruct (fst (segment_size_or_inferred ss _ [])) as [size | e |];
        [| by rewrite <- !app_assoc..].
      unfold open. destruct (files w lf) as [data |];
        [| by rewrite <- !app_assoc].
      unfold ret, lift.
      destruct (iter_read (S (String.length data)) w size data);
        by rewrite <- !app_assoc.
    + destruct (decide (cls = AttributeError)); by rewrite <- !app_assoc.
    + by rewrite <- !app_assoc.
  - exists []. split; [| done]. simpl. by rewrite <- app_assoc.
Qed.

Lemma md5_check_segment_container_witness :
  (∃ queried,
     snd (md5_check (segmented_world_in "archive" scenario_C_segments "aaaabbbbcc")
            "local" "cont" "obj" 0 (Some "archive") [])
     = ([] ++ [swift_stat "cont" "obj"; swift_list "archive" "obj"]
           ++ (swift_stat "archive" <$> queried))%list ∧
     ∀ listing,
       shell (segmented_world_in "archive" scenario_C_segments "aaaabbbbcc")
         (swift_list "archive" "obj") = Some listing →
       queried `prefix_of` Py.split (Py.strip listing)) ∧
  (∃ queried,
     snd (md5_check (segmented_world scenario_C_segments "aaaabbbbcc")
            "local" "cont" "obj" 0 None [])
     = ([] ++ [swift_stat "cont" "obj"; swift_list "cont_segments" "obj"]
           ++ (swift_stat "cont_segments" <$> queried))%list ∧
     ∀ listing,
       shell (segmented_world scenario_C_segments "aaaabbbbcc")
         (swift_list "cont_segments" "obj") = Some listing →
       queried `prefix_of` Py.split (Py.strip listing)).
Proof.
  split.
  - apply (md5_check_segment_container
             (segmented_world_in "archive" scenario_C_segments "aaaabbbbcc")
             "local" "cont" "obj" "Manifest: cont_segments/obj"
             "cont_segments/obj" "archive" 0 (Some "archive") []);
      [reflexivity | reflexivity | left; split; [reflexivity | discriminate]].
  - apply (md5_check_segment_container
             (segmented_world scenario_C_segments "aaaabbbbcc")
             "local" "cont" "obj" "Manifest: cont_segments/obj"
             "cont_segments/obj" "cont_segments" 0 None []);
      [reflexivity | reflexivity | right; split; [left |]; reflexivity].
Defined.

(** C6 as stated fails: the empty string given as [segment_container] is
    not the container that is queried. *)
Lemma md5_check_empty_segment_container :
  run (md5_check (segmented_world scenario_C_segments "aaaabbbbcc")
         "local" "cont" "obj" 0 (Some ""))
  = (Return true,
     [ "swift stat cont obj";
       "swift list cont_segments --prefix obj";
       "swift stat cont_segments obj/1487100000.00/10/4/00000000";
       "swift stat cont_segments obj/1487100000.00/10/4/00000001";
       "swift stat cont_segments obj/1487100000.00/10/4/00000002" ]) ∧
  swift_list "" "obj"
  ∉ snd (run (md5_check (segmented_world scenario_C_segments "aaaabbbbcc")
                "local" "cont" "obj" 0 (Some ""))).
Proof.
  split; [vm_compute; reflexivity |].
  intros H. apply list_elem_of_In in H. vm_compute in H.
  repeat (destruct H as [H | H]; [discriminate H |]). exact H.
Qed.

Example md5_check_given_container :
  run (md5_check (segmented_world_in "archive" scenario_C_segments "aaaabbbbcc")
         "local" "cont" "obj" 0 (Some "archive"))
  = (Return true,
     [ "swift stat cont obj";
       "swift list archive --prefix obj";
       "swift stat archive obj/1487100000.00/10/4/00000000";
       "swift stat archive obj/1487100000.00/10/4/00000001";
       "swift stat archive obj/1487100000.00/10/4/00000002" ]).
Proof. vm_compute. reflexivity. Qed.

Example md5_check_default_container :
  run (md5_check (segmented_world scenario_C_segments "aaaabbbbcc")
         "local" "cont" "obj" 0 None)
  = (Return true,
     [ "swift stat cont obj";
       "swift list cont_segments --prefix obj";
       "swift stat cont_segments obj/1487100000.00/10/4/00000000";
       "swift stat cont_segments obj/1487100000.00/10/4/00000001";
       "swift stat cont_segments obj/1487100000.00/10/4/00000002" ]).
Proof. vm_compute. reflexivity. Qed.






Example md5_check_empty_listing_outcomes :
  run (md5_check (segmented_world [] "aaaabbbbcc") "local" "cont" "obj" 0 None)
  = (Raise (Exn IndexError "list index out of range"),
     ["swift stat cont obj"; "swift list cont_segments --prefix obj"]) ∧
  run (md5_check (segmented_world [] "aaaabbbbcc") "local" "cont" "obj" 4 None)
  = (Return false,
     ["swift stat cont obj"; "swift list cont_segments --prefix obj"]) ∧
  run (md5_check (segmented_world [] "") "local" "cont" "obj" 4 None)
  = (Return true,
     ["swift stat cont obj"; "swift list cont_segments --prefix obj"]).
Proof. repeat split; vm_compute; reflexivity. Qed.

Lemma remote_segment_md5s_no_diverge (w : world) (c : string)
    (segments : list string) (acc : gset string) (tr : trace) :
  fst (remote_segment_md5s w c segments acc tr) ≠ Diverge.
Proof.
  revert acc tr. induction segments as [| segment segments IH]; intros acc tr;
    [done |].
  cbn [remote_segment_md5s]. unfold bind, check_output.
  destruct (shell w (swift_stat c segment)) as [stat |]; [| done].
  destruct (etag_search stat); [apply IH | done].
Qed.

Lemma segment_size_no_diverge (ss : Z) (segments : list string) :
  fst (segment_size_or_inferred ss segments []) ≠ Diverge.
Proof.
  unfold segment_size_or_inferred. destruct (ss =? 0); [| done].
  unfold bind, item, int_of.
  destruct (segments !! 0%nat) as [first |]; [| done]. cbn.
  destruct (Py.index_from_end _ _) as [component |]; [| done]. cbn.
  by destruct (Py.int component).
Qed.

(** The chunking loop never exceeds its bound: [md5_check] always returns
    or raises. *)
Lemma md5_check_terminates (w : world) (lf oc on : string) (ss : Z)
    (sc : option string) (tr : trace) :
  fst (md5_check w lf oc on ss sc tr) ≠ Diverge.
Proof.
  unfold md5_check, bind, check_output.
  destruct (shell w (swift_stat oc on)) as [stat |]; [| done].
  destruct (Py.is_empty stat); [done |].
  destruct (manifest_search stat) as [m |].
  - cbv zeta.
    destruct (shell w (swift_list _ on)) as [listing |]; [| done].
    unfold try_except.
    pose proof (λ c segs acc tr, remote_segment_md5s_no_diverge w c segs acc tr) as Hrem.
    specialize (Hrem (segment_container_or_default sc oc)
                  (Py.split (Py.strip listing)) ∅
                  ((tr ++ [swift_stat oc on])
                     ++ [swift_list (segment_container_or_default sc oc) on])%list).
    destruct (remote_segment_md5s w _ _ ∅ _) as [[remote | [cls msg] |] tr'];
      [| by destruct (decide (cls = AttributeError)) | done].
    rewrite segment_size_outcome.
    pose proof (segment_size_no_diverge ss (Py.split (Py.strip listing))) as Hsz.
    destruct (fst (segment_size_or_inferred ss _ [])) as [size | e |];
      [| done..].
    unfold open. destruct (files w lf) as [data |]; [| done]. unfold ret, lift.
    pose proof (iter_read_total w size data) as Htotal.
    by destruct (iter_read (S (String.length data)) w size data).
  - destruct (etag_search stat); [| done].
    unfold open. by destruct (files w lf).
Qed.

(** *** The other ways the segmented path ends *)

(** A segment without ETag: the [AttributeError] of the comprehension is
    caught and raised again with the message of the module. *)
Example md5_check_segment_without_etag :
  run (md5_check
         (World (table [ ("swift stat cont obj", "Manifest: cont_segments/obj");
                         ("swift list cont_segments --prefix obj", "obj/1/4/4/0");
                         ("swift stat cont_segments obj/1/4/4/0",
                          "Content Length: 4") ])
                (table [("local", "aaaa")])
           sys_maxint example_memory)
         "local" "cont" "obj" 0 None)
  = (Raise (Exn AttributeError "ETag not found for segment in swift stat"),
     [ "swift stat cont obj"; "swift list cont_segments --prefix obj";
       "swift stat cont_segments obj/1/4/4/0" ]).
Proof. vm_compute. reflexivity. Qed.

(** A failing listing is not caught. *)
Example md5_check_listing_fails :
  run (md5_check
         (World (table [ ("swift stat cont obj", "Manifest: cont_segments/obj") ])
                (table [("local", "aaaa")])
           sys_maxint example_memory)
         "local" "cont" "obj" 0 None)
  = (Raise (Exn CalledProcessError "swift list cont_segments --prefix obj"),
     [ "swift stat cont obj"; "swift list cont_segments --prefix obj" ]).
Proof. vm_compute. reflexivity. Qed.

(** Segment names that do not carry a size. *)
Example md5_check_size_not_inferred :
  fst (segment_size_or_inferred 0 ["segment"] [])
  = Raise (Exn IndexError "list index out of range") ∧
  fst (segment_size_or_inferred 0 ["obj/part/0"] [])
  = Raise (Exn ValueError "invalid literal for int() with base 10").
Proof. split; reflexivity. Qed.

(** ** Decimal numbers and [int] *)

Lemma string_of_uint_digits (d : Decimal.uint) :
  Py.all Py.isdigit (NilEmpty.string_of_uint d) = true.
Proof. induction d; simpl; auto. Qed.

Lemma digits_value_of_uint_acc (d : Decimal.uint) (acc : positive) :
  Py.digits_value (Z.pos acc) (NilEmpty.string_of_uint d)
  = Some (Z.pos (Pos.of_uint_acc d acc)).
Proof.
  revert acc. induction d as [| d IH | d IH | d IH | d IH | d IH | d IH
                              | d IH | d IH | d IH | d IH]; intros acc;
    [reflexivity | ..];
    cbn [NilEmpty.string_of_uint Py.digits_value Pos.of_uint_acc];
    (replace (Py.isdigit _) with true by reflexivity);
    rewrite <- IH; f_equal;
    match goal with
    | |- context [N_of_ascii ?c] =>
        let v := eval vm_compute in (N_of_ascii c) in
        change (N_of_ascii c) with v
    end; lia.
Qed.

Lemma digits_value_of_uint (d : Decimal.uint) :
  Py.digits_value 0 (NilEmpty.string_of_uint d) = Some (Z.of_N (N.of_uint d)).
Proof.
  induction d as [| d IH | d IH | d IH | d IH | d IH | d IH
                  | d IH | d IH | d IH | d IH];
    [reflexivity | exact IH | ..];
    cbn [NilEmpty.string_of_uint Py.digits_value N.of_uint Pos.of_uint];
    (replace (Py.isdigit _) with true by reflexivity);
    cbn [Z.of_N]; rewrite <- digits_value_of_uint_acc; reflexivity.
Qed.

(** On a non-empty string of digits [int] is the value of the digits. *)
Lemma int_of_digits (s : string) :
  s ≠ "" → Py.all Py.isdigit s = true → Py.int s = Py.digits_value 0 s.
Proof.
  intros Hne Hall. unfold Py.int.
  rewrite strip_id by (eapply all_impl; [| exact Hall];
    intros c Hc; unfold Py.isnonspace; by rewrite isdigit_not_space).
  destruct s as [| c s]; [done |].
  assert (Hc : Py.isdigit c = true)
    by (simpl in Hall; by apply andb_prop in Hall as [? _]).
  assert (Ascii.eqb c "-" = false ∧ Ascii.eqb c "+" = false) as [-> ->].
  { split; apply Ascii.eqb_neq; intros ->; vm_compute in Hc; congruence. }
  reflexivity.
Qed.

Lemma decimal_digits (n : N) :
  decimal n ≠ "" ∧ Py.all Py.isdigit (decimal n) = true.
Proof.
  split; [| apply string_of_uint_digits].
  unfold decimal. destruct n as [| p]; [done |].
  cbn [N.to_uint]. pose proof (Unsigned.to_uint_nonnil p) as Hnil.
  destruct (Pos.to_uint p); done.
Qed.

(** Reading back a number written in decimal. *)
Lemma int_decimal (n : N) : Py.int (decimal n) = Some (Z.of_N n).
Proof.
  destruct (decimal_digits n) as [Hne Hall].
  rewrite int_of_digits by done. unfold decimal.
  by rewrite digits_value_of_uint, DecimalN.Unsigned.of_to.
Qed.




(** The numbers read: 10 for ["10"], against 10 and 9 local bytes, and 0
    against the empty file. *)
Example filesize_check_numbers :
  NilEmpty.uint_of_string "10" = Some (Decimal.D1 (Decimal.D0 Decimal.Nil)) ∧
  N.of_uint (Decimal.D1 (Decimal.D0 Decimal.Nil)) = 10%N ∧
  run (filesize_check (plain_world "Content Length: 10" "0123456789")
         "local" "cont" "obj")
  = (Return true, ["swift stat cont obj"]) ∧
  run (filesize_check (plain_world "Content Length: 10" "012345678")
         "local" "cont" "obj")
  = (Return false, ["swift stat cont obj"]) ∧
  run (filesize_check (plain_world "Content Length: 0" "")
         "local" "cont" "obj")
  = (Return true, ["swift stat cont obj"]).
Proof. repeat split; reflexivity. Qed.

(** ** The first match of a search *)

Lemma strip_prefix_shorter (lit x s : string) :
  (String.length lit ≤ String.length x)%nat →
  is_Some (Py.strip_prefix lit (x +:+ s)) → is_Some (Py.strip_prefix lit x).
Proof.
  revert x. induction lit as [| a lit IH]; intros x Hlen H; [by eexists |].
  destruct x as [| b x]; [simpl in Hlen; lia |].
  rewrite app_String in H. simpl in *.
  destruct (Ascii.eqb a b); [| by destruct H].
  apply IH; [lia | done].
Qed.

Lemma append_length (a b : string) :
  String.length (a +:+ b) = (String.length a + String.length b)%nat.
Proof. induction a as [| c a IH]; [done |]. rewrite app_String. simpl. lia. Qed.

Lemma append_assoc (a b c : string) : (a +:+ b) +:+ c = a +:+ b +:+ c.
Proof.
  induction a as [| x a IH]; [done |]. rewrite !app_String. by rewrite IH.
Qed.

(** A match at the first occurrence of the literal is the match that the
    search returns. *)
Lemma re_search_first (lit : string) (cls : ascii → bool) (pre s g : string) :
  first_occurrence lit pre = true →
  Py.match_here lit cls (lit +:+ s) = Some g →
  Py.re_search lit cls (pre +:+ lit +:+ s) = Some g.
Proof.
  intros Hfirst Hhere. induction pre as [| c pre IH].
  - rewrite app_empty. destruct (lit +:+ s); simpl; by rewrite Hhere.
  - cbn [first_occurrence] in Hfirst.
    apply andb_prop in Hfirst as [Hno Hfirst].
    rewrite app_String. cbn [Py.re_search]. rewrite <- app_String.
    assert (Hnone : Py.match_here lit cls (String c pre +:+ lit +:+ s) = None).
    { unfold Py.match_here.
      destruct (Py.strip_prefix lit (String c pre +:+ lit +:+ s)) eqn:E;
        [| done].
      exfalso. apply negb_true_iff in Hno. unfold startswith in Hno.
      destruct (strip_prefix_shorter lit (String c pre +:+ lit) s) as [r Hr].
      - rewrite append_length. lia.
      - rewrite append_assoc. by eexists.
      - by rewrite Hr in Hno. }
    rewrite Hnone. by apply IH.
Qed.

(** The group of a match at the start, when the class excludes
    whitespace. *)
Lemma match_here_group (lit : string) (cls : ascii → bool)
    (ws g rest : string) :
  (∀ c, cls c = true → Py.isspace c = false) →
  ws ≠ "" → Py.all Py.isspace ws = true →
  g ≠ "" → Py.all cls g = true →
  not_starting_with cls rest = true →
  Py.match_here lit cls (lit +:+ ws +:+ g +:+ rest) = Some g.
Proof.
  intros Hcls Hws Hsp Hg Hall Hrest. unfold Py.match_here.
  rewrite (proj2 (strip_prefix_spec lit _ (ws +:+ g +:+ rest)) eq_refl).
  rewrite (span_app_stop Py.isspace ws (g +:+ rest) Hsp).
  - apply is_empty_false in Hws as ->.
    rewrite (span_app_stop cls g rest Hall).
    + by apply is_empty_false in Hg as ->.
    + destruct rest as [| c rest]; [done |]. simpl in Hrest.
      by apply negb_true_iff in Hrest.
  - destruct g as [| c g]; [done |]. rewrite app_String.
    simpl in Hall. apply andb_prop in Hall as [Hc _]. by apply Hcls.
Qed.

(** ** Further properties of [filesize_check] *)

(** X1.  When the local file does not exist, [filesize_check] still runs
    [swift stat] first and reports what is wrong with the record before it
    looks at the file: [ValueError] for an empty record, [AttributeError]
    naming the object for a record without content length, and [OSError]
    for the file only when the record holds a content length (which always
    converts to a number).  It never returns a boolean. *)
Theorem filesize_check_missing_file (w : world) (lf oc on stat : string)
    (tr : trace) :
  shell w (swift_stat oc on) = Some stat →
  files w lf = None →
  filesize_check w lf oc on tr
  = (Raise
       (if Py.is_empty stat then
          Exn ValueError "Swift stat returned nothing"
        else
          match content_length_search stat with
          | None =>
              Exn AttributeError
                ("Content length not found for object " +:+ on
                 +:+ " in swift stat")
          | Some _ => Exn OSError lf
          end),
     (tr ++ [swift_stat oc on])%list).
Proof.
  intros Hstat Hfile.
  unfold filesize_check, bind. rewrite (check_output_ok _ _ _ _ Hstat).
  destruct (Py.is_empty stat); [done |].
  destruct (content_length_search stat) as [group1 |] eqn:Hsearch; [| done].
  destruct (content_length_int _ _ Hsearch) as (n & Hint & _).
  unfold int_of. rewrite Hint. cbn [ret].
  unfold getsize. by rewrite Hfile.
Qed.

Lemma filesize_check_missing_file_witness :
  filesize_check (plain_world (stat_output "10" "abc") "0123456789")
    "elsewhere" "cont" "obj" []
  = (Raise
       (if Py.is_empty (stat_output "10" "abc") then
          Exn ValueError "Swift stat returned nothing"
        else
          match content_length_search (stat_output "10" "abc") with
          | None =>
              Exn AttributeError
                ("Content length not found for object " +:+ "obj"
                 +:+ " in swift stat")
          | Some _ => Exn OSError "elsewhere"
          end),
     ([] ++ [swift_stat "cont" "obj"])%list).
Proof.
  apply (filesize_check_missing_file
           (plain_world (stat_output "10" "abc") "0123456789")
           "elsewhere" "cont" "obj" (stat_output "10" "abc") []);
    reflexivity.
Defined.

(** X2.  [filesize_check] sees the local file through its length only: with
    the same store, two local files of the same length get the same
    outcome, whatever their content. *)
Theorem filesize_check_same_length
    (sh files1 files2 : string → option string) (mx mem : N)
    (lf oc on data1 data2 : string) (tr : trace) :
  files1 lf = Some data1 →
  files2 lf = Some data2 →
  String.length data1 = String.length data2 →
  filesize_check (World sh files1 mx mem) lf oc on tr
  = filesize_check (World sh files2 mx mem) lf oc on tr.
Proof.
  intros H1 H2 Hlen. unfold filesize_check, bind, check_output. cbn [shell].
  destruct (sh (swift_stat oc on)) as [stat |]; [| done].
  destruct (Py.is_empty stat); [done |].
  destruct (content_length_search stat) as [group1 |]; [| done].
  unfold int_of. destruct (Py.int group1) as [n |]; [| done]. cbn [ret].
  unfold getsize. cbn [files]. by rewrite H1, H2, Hlen.
Qed.

Lemma filesize_check_same_length_witness :
  filesize_check
    (World (table [("swift stat cont obj", stat_output "10" "abc")])
           (table [("local", "0123456789")])
           sys_maxint example_memory)
    "local" "cont" "obj" []
  = filesize_check
      (World (table [("swift stat cont obj", stat_output "10" "abc")])
             (table [("local", "9876543210")])
           sys_maxint example_memory)
      "local" "cont" "obj" [].
Proof.
  apply (filesize_check_same_length
           (table [("swift stat cont obj", stat_output "10" "abc")])
           (table [("local", "0123456789")])
           (table [("local", "9876543210")])
           sys_maxint example_memory
           "local" "cont" "obj" "0123456789" "9876543210" []);
    reflexivity.
Defined.

(** X3.  Reading back what [swift stat] prints: when the first
    [Content Length:] of the record is followed by whitespace and the
    decimal notation of a number [n], [filesize_check] returns whether [n]
    is the length of the local file.  Lines before and after do not
    matter. *)
Theorem filesize_check_reads_decimal (w : world)
    (lf oc on pre ws rest data : string) (n : N) (tr : trace) :
  shell w (swift_stat oc on)
  = Some (pre +:+ "Content Length:" +:+ ws +:+ decimal n +:+ rest) →
  first_occurrence "Content Length:" pre = true →
  ws ≠ "" → Py.all Py.isspace ws = true →
  not_starting_with Py.isdigit rest = true →
  files w lf = Some data →
  filesize_check w lf oc on tr
  = (Return (bool_decide (n = N.of_nat (String.length data))),
     (tr ++ [swift_stat oc on])%list).
Proof.
  intros Hstat Hfirst Hws Hsp Hrest Hfile.
  destruct (decimal_digits n) as [Hne Hall].
  assert (Hsearch :
    content_length_search
      (pre +:+ "Content Length:" +:+ ws +:+ decimal n +:+ rest)
    = Some (decimal n)).
  { apply re_search_first; [done |].
    apply match_here_group; auto using isdigit_not_space. }
  unfold filesize_check, bind. rewrite (check_output_ok _ _ _ _ Hstat).
  assert (Hnonempty :
    Py.is_empty (pre +:+ "Content Length:" +:+ ws +:+ decimal n +:+ rest)
    = false).
  { destruct pre; [done |]. by rewrite app_String. }
  rewrite Hnonempty, Hsearch. unfold int_of. rewrite int_decimal. cbn [ret].
  unfold getsize. rewrite Hfile. unfold ret. f_equal. f_equal.
  destruct (Z.eqb_spec (Z.of_N n) (Z.of_nat (String.length data))) as [E | E].
  - rewrite bool_decide_eq_true_2; [done | lia].
  - rewrite bool_decide_eq_false_2; [done | lia].
Qed.

Lemma filesize_check_reads_decimal_witness :
  filesize_check (plain_world (stat_output "10" "abc") "0123456789")
    "local" "cont" "obj" []
  = (Return (bool_decide (10%N = N.of_nat (String.length "0123456789"))),
     ([] ++ [swift_stat "cont" "obj"])%list).
Proof.
  apply (filesize_check_reads_decimal
           (plain_world (stat_output "10" "abc") "0123456789")
           "local" "cont" "obj"
           ("       Account: AUTH_test" +:+ newline
            +:+ "  Content Type: application/octet-stream" +:+ newline)
           " "
           (newline +:+ "          ETag: " +:+ "abc" +:+ newline)
           "0123456789" 10 []);
    try reflexivity.
  discriminate.
Defined.

(** ** Further properties of the non-segmented path *)

(** The non-segmented path on an existing file. *)
Lemma md5_check_plain (w : world) (lf oc on stat etag data : string)
    (ss : Z) (sc : option string) (tr : trace) :
  shell w (swift_stat oc on) = Some stat →
  manifest_search stat = None →
  etag_search stat = Some etag →
  files w lf = Some data →
  md5_check w lf oc on ss sc tr
  = (Return (bool_decide (MD5.hexdigest data = etag)),
     (tr ++ [swift_stat oc on])%list).
Proof.
  intros Hstat Hman Hetag Hfile.
  unfold md5_check, bind. rewrite (check_output_ok _ _ _ _ Hstat).
  destruct stat as [| c stat]; [done |]. cbn [Py.is_empty].
  rewrite Hman, Hetag. unfold open. rewrite Hfile. unfold ret.
  unfold read_all. cbn [fst].
  rewrite hexdigest_strip, (etag_strip _ _ Hetag).
  f_equal. f_equal.
  destruct (String.eqb_spec (MD5.hexdigest data) etag).
  - by rewrite bool_decide_eq_true_2.
  - by rewrite bool_decide_eq_false_2.
Qed.

(** X4.  In the non-segmented path an ETag that is not made of exactly 32
    lower-case hexadecimal digits matches no local file: [md5_check]
    returns false whatever the file holds. *)
Theorem md5_check_malformed_etag (w : world) (lf oc on stat etag data : string)
    (ss : Z) (sc : option string) (tr : trace) :
  shell w (swift_stat oc on) = Some stat →
  manifest_search stat = None →
  etag_search stat = Some etag →
  files w lf = Some data →
  String.length etag ≠ 32%nat ∨ Py.all is_lower_hex etag = false →
  md5_check w lf oc on ss sc tr
  = (Return false, (tr ++ [swift_stat oc on])%list).
Proof.
  intros Hstat Hman Hetag Hfile Hbad.
  rewrite (md5_check_plain _ _ _ _ _ _ _ _ _ _ Hstat Hman Hetag Hfile).
  rewrite bool_decide_eq_false_2; [done |].
  intros <-. destruct Hbad as [Hlen | Hhex].
  - by rewrite hexdigest_length in Hlen.
  - by rewrite hexdigest_lower_hex in Hhex.
Qed.

Lemma md5_check_malformed_etag_witness :
  md5_check
    (plain_world (stat_output "10" "781E5E245D69B566979B86E28D23F2C7")
       "0123456789")
    "local" "cont" "obj" 0 None []
  = (Return false, ([] ++ [swift_stat "cont" "obj"])%list).
Proof.
  apply (md5_check_malformed_etag
           (plain_world (stat_output "10" "781E5E245D69B566979B86E28D23F2C7")
              "0123456789")
           "local" "cont" "obj"
           (stat_output "10" "781E5E245D69B566979B86E28D23F2C7")
           "781E5E245D69B566979B86E28D23F2C7" "0123456789" 0 None []);
    try reflexivity.
  right. reflexivity.
Defined.



(** ** Further properties of the segmented path *)

Lemma remote_segment_md5s_app (w : world) (c : string)
    (before after : list string) (acc acc' : gset string) (tr tr' : trace) :
  remote_segment_md5s w c before acc tr = (Return acc', tr') →
  remote_segment_md5s w c (before ++ after) acc tr
  = remote_segment_md5s w c after acc' tr'.
Proof.
  revert acc tr. induction before as [| segment before IH]; intros acc tr.
  - by intros [= <- <-].
  - cbn [app remote_segment_md5s]. unfold bind, check_output.
    destruct (shell w (swift_stat c segment)) as [stat |]; [| done].
    destruct (etag_search stat); [apply IH | done].
Qed.

(** Enter the segmented path of [md5_check] up to the comprehension. *)
Ltac enter_segmented Hstat Hman Hlist :=
  unfold md5_check, bind; rewrite (check_output_ok _ _ _ _ Hstat);
  match goal with
  | H : manifest_search ?stat = Some _ |- _ =>
      destruct stat; [discriminate H |]
  end;
  cbn [Py.is_empty]; rewrite Hman; cbv zeta;
  rewrite (check_output_ok _ _ _ _ Hlist); unfold try_except.

(** X6.  The first segment of the listing whose [swift stat] shows no ETag
    ends the check: [md5_check] raises [AttributeError] with the message
    ['ETag not found for segment in swift stat'], having queried the
    segments up to that one and none after it; the local file is not
    opened. *)
Theorem md5_check_segment_etag_missing (w : world)
    (lf oc on stat m listing bad bad_stat : string)
    (before after etags : list string) (ss : Z) (sc : option string)
    (tr : trace) :
  shell w (swift_stat oc on) = Some stat →
  manifest_search stat = Some m →
  shell w (swift_list (segment_container_or_default sc oc) on) = Some listing →
  Py.split (Py.strip listing) = (before ++ bad :: after)%list →
  mapM (segment_etag w (segment_container_or_default sc oc)) before
  = Some etags →
  shell w (swift_stat (segment_container_or_default sc oc) bad)
  = Some bad_stat →
  etag_search bad_stat = None →
  md5_check w lf oc on ss sc tr
  = (Raise (Exn AttributeError "ETag not found for segment in swift stat"),
     (tr ++ [swift_stat oc on;
             swift_list (segment_container_or_default sc oc) on]
         ++ (swift_stat (segment_container_or_default sc oc) <$> before)
         ++ [swift_stat (segment_container_or_default sc oc) bad])%list).
Proof.
  intros Hstat Hman Hlist Hsegs Hetags Hbad Hnone.
  enter_segmented Hstat Hman Hlist.
  rewrite Hsegs.
  rewrite (remote_segment_md5s_app _ _ _ _ _ _ _ _
             (remote_segment_md5s_ok _ _ _ _ _ _ Hetags)).
  cbn [remote_segment_md5s]. unfold bind.
  rewrite (check_output_ok _ _ _ _ Hbad), Hnone.
  unfold raise. cbn. by rewrite <- !app_assoc.
Qed.

Lemma md5_check_segment_etag_missing_witness :
  md5_check
    (World (table [ ("swift stat cont obj", "Manifest: cont_segments/obj");
                    ("swift list cont_segments --prefix obj",
                     "obj/1/6/2/0 obj/1/6/2/1 obj/1/6/2/2");
                    ("swift stat cont_segments obj/1/6/2/0",
                     "ETag: 4124bc0a9335c27f086f24ba207a4912");
                    ("swift stat cont_segments obj/1/6/2/1",
                     "Content Length: 2");
                    ("swift stat cont_segments obj/1/6/2/2",
                     "ETag: 4124bc0a9335c27f086f24ba207a4912") ])
           (table [("local", "aaabaa")])
           sys_maxint example_memory)
    "local" "cont" "obj" 0 None []
  = (Raise (Exn AttributeError "ETag not found for segment in swift stat"),
     ([] ++ [swift_stat "cont" "obj";
             swift_list (segment_container_or_default None "cont") "obj"]
         ++ (swift_stat (segment_container_or_default None "cont")
               <$> ["obj/1/6/2/0"])
         ++ [swift_stat (segment_container_or_default None "cont")
               "obj/1/6/2/1"])%list).
Proof.
  apply (md5_check_segment_etag_missing _ "local" "cont" "obj"
           "Manifest: cont_segments/obj" "cont_segments/obj"
           "obj/1/6/2/0 obj/1/6/2/1 obj/1/6/2/2" "obj/1/6/2/1"
           "Content Length: 2" ["obj/1/6/2/0"] ["obj/1/6/2/2"]
           ["4124bc0a9335c27f086f24ba207a4912"] 0 None []);
    reflexivity.
Defined.

(** X7.  A command that fails in the segmented path is not turned into
    the ETag error: a failing listing raises [CalledProcessError] before
    any segment is queried, and a failing [swift stat] of a segment raises
    [CalledProcessError] through the [try] that catches
    [AttributeError]. *)
Theorem md5_check_command_failure (w : world)
    (lf oc on stat m : string) (ss : Z) (sc : option string) (tr : trace) :
  shell w (swift_stat oc on) = Some stat →
  manifest_search stat = Some m →
  (shell w (swift_list (segment_container_or_default sc oc) on) = None →
   md5_check w lf oc on ss sc tr
   = (Raise (Exn CalledProcessError
               (swift_list (segment_container_or_default sc oc) on)),
      (tr ++ [swift_stat oc on;
              swift_list (segment_container_or_default sc oc) on])%list)) ∧
  (∀ listing bad before after etags,
     shell w (swift_list (segment_container_or_default sc oc) on)
     = Some listing →
     Py.split (Py.strip listing) = (before ++ bad :: after)%list →
     mapM (segment_etag w (segment_container_or_default sc oc)) before
     = Some etags →
     shell w (swift_stat (segment_container_or_default sc oc) bad) = None →
     md5_check w lf oc on ss sc tr
     = (Raise (Exn CalledProcessError
                 (swift_stat (segment_container_or_default sc oc) bad)),
        (tr ++ [swift_stat oc on;
                swift_list (segment_container_or_default sc oc) on]
            ++ (swift_stat (segment_container_or_default sc oc) <$> before)
            ++ [swift_stat (segment_container_or_default sc oc) bad])%list)).
Proof.
  intros Hstat Hman. split.
  - intros Hlist. unfold md5_check, bind.
    rewrite (check_output_ok _ _ _ _ Hstat).
    destruct stat; [discriminate Hman |]. cbn [Py.is_empty].
    rewrite Hman. cbv zeta. unfold check_output. rewrite Hlist.
    by rewrite <- !app_assoc.
  - intros listing bad before after etags Hlist Hsegs Hetags Hbad.
    enter_segmented Hstat Hman Hlist.
    rewrite Hsegs.
    rewrite (remote_segment_md5s_app _ _ _ _ _ _ _ _
               (remote_segment_md5s_ok _ _ _ _ _ _ Hetags)).
    cbn [remote_segment_md5s]. unfold bind, check_output. rewrite Hbad.
    cbn. by rewrite <- !app_assoc.
Qed.

Lemma md5_check_command_failure_witness :
  md5_check
    (World (table [ ("swift stat cont obj", "Manifest: cont_segments/obj") ])
           (table [("local", "aaabaa")])
           sys_maxint example_memory)
    "local" "cont" "obj" 0 None []
  = (Raise (Exn CalledProcessError
              (swift_list (segment_container_or_default None "cont") "obj")),
     ([] ++ [swift_stat "cont" "obj";
             swift_list (segment_container_or_default None "cont") "obj"])%list)
  ∧
  md5_check
    (World (table [ ("swift stat cont obj", "Manifest: cont_segments/obj");
                    ("swift list cont_segments --prefix obj",
                     "obj/1/6/2/0 obj/1/6/2/1");
                    ("swift stat cont_segments obj/1/6/2/0",
                     "ETag: 4124bc0a9335c27f086f24ba207a4912") ])
           (table [("local", "aaabaa")])
           sys_maxint example_memory)
    "local" "cont" "obj" 0 None []
  = (Raise (Exn CalledProcessError
              (swift_stat (segment_container_or_default None "cont")
                 "obj/1/6/2/1")),
     ([] ++ [swift_stat "cont" "obj";
             swift_list (segment_container_or_default None "cont") "obj"]
         ++ (swift_stat (segment_container_or_default None "cont")
               <$> ["obj/1/6/2/0"])
         ++ [swift_stat (segment_container_or_default None "cont")
               "obj/1/6/2/1"])%list).
Proof.
  split.
  - match goal with
    | |- md5_check ?w _ _ _ _ _ _ = _ =>
        apply (proj1 (md5_check_command_failure w "local" "cont" "obj"
                        "Manifest: cont_segments/obj" "cont_segments/obj"
                        0 None [] eq_refl eq_refl))
    end.
    reflexivity.
  - match goal with
    | |- md5_check ?w _ _ _ _ _ _ = _ =>
        apply (proj2 (md5_check_command_failure w "local" "cont" "obj"
                        "Manifest: cont_segments/obj" "cont_segments/obj"
                        0 None [] eq_refl eq_refl)
                 "obj/1/6/2/0 obj/1/6/2/1" "obj/1/6/2/1" ["obj/1/6/2/0"] []
                 ["4124bc0a9335c27f086f24ba207a4912"])
    end;
      reflexivity.
Defined.

(** *** Reading the segment size from a segment name *)

Lemma split_on_free (sep : ascii) (s : string) :
  Py.all (λ c, negb (Ascii.eqb c sep)) s = true → Py.split_on sep s = [s].
Proof.
  induction s as [| c s IH]; [done |]. simpl.
  intros [Hc Hs]%andb_prop. apply negb_true_iff in Hc. rewrite Hc.
  by rewrite (IH Hs).
Qed.

Lemma split_on_nonempty (sep : ascii) (s : string) : Py.split_on sep s ≠ [].
Proof.
  destruct s as [| c s]; [done |]. simpl.
  destruct (Ascii.eqb c sep); [done |]. by destruct (Py.split_on sep s).
Qed.

Lemma split_on_sep (sep : ascii) (a b : string) :
  Py.split_on sep (a +:+ String sep b)
  = (Py.split_on sep a ++ Py.split_on sep b)%list.
Proof.
  induction a as [| c a IH].
  - rewrite app_empty. simpl. by rewrite Ascii.eqb_refl.
  - rewrite app_String. simpl. destruct (Ascii.eqb c sep); [by rewrite IH |].
    rewrite IH.
    pose proof (split_on_nonempty sep a) as Hne.
    by destruct (Py.split_on sep a).
Qed.

Lemma decimal_slash_free (n : N) : slash_free (decimal n) = true.
Proof.
  unfold slash_free. eapply all_impl; [| apply (decimal_digits n)].
  intros c Hc. apply negb_true_iff, Ascii.eqb_neq. intros ->.
  vm_compute in Hc. congruence.
Qed.

(** X8.  Segment names as [swift] writes them end in
    [/<segment size>/<index>].  For every such name, with the size in
    decimal and an index without slash, the size that [md5_check] infers
    when no size is given is that segment size, whatever precedes it in the
    name (the object name may itself contain slashes). *)
Theorem segment_size_round_trip (prefix index : string) (n : N)
    (others : list string) (tr : trace) :
  slash_free index = true →
  segment_size_or_inferred 0
    ((prefix +:+ "/" +:+ decimal n +:+ "/" +:+ index) :: others) tr
  = (Return (Z.of_N n), tr).
Proof.
  intros Hindex.
  assert (Hstep : ∀ first,
            segment_size_or_inferred 0 (first :: others) tr
            = (component <-
                 item (Py.index_from_end (Py.split_on "/" first) 2) ;;
               int_of component) tr) by reflexivity.
  rewrite Hstep. unfold bind, item.
  change (prefix +:+ "/" +:+ decimal n +:+ "/" +:+ index)
    with (prefix +:+ String "/" (decimal n +:+ String "/" index)).
  rewrite !split_on_sep.
  rewrite (split_on_free "/" (decimal n)) by apply decimal_slash_free.
  rewrite (split_on_free "/" index) by exact Hindex.
  unfold Py.index_from_end. rewrite !length_app. cbn [List.length].
  destruct (Nat.leb_spec 2 (List.length (Py.split_on "/" prefix) + (1 + 1)));
    [| lia].
  replace (List.length (Py.split_on "/" prefix) + (1 + 1) - 2)%nat
    with (List.length (Py.split_on "/" prefix) + 0)%nat by lia.
  rewrite nth_error_app2 by lia.
  replace (List.length (Py.split_on "/" prefix) + 0
           - List.length (Py.split_on "/" prefix))%nat with 0%nat by lia.
  cbn. unfold int_of. by rewrite int_decimal.
Qed.

Lemma segment_size_round_trip_witness :
  segment_size_or_inferred 0
    (("backups/2017/obj/1487100000.00/1048576000" +:+ "/"
      +:+ decimal 524288 +:+ "/" +:+ "00000000") :: []) []
  = (Return (Z.of_N 524288), []).
Proof.
  apply (segment_size_round_trip "backups/2017/obj/1487100000.00/1048576000"
           "00000000" 524288 [] []).
  reflexivity.
Defined.

(** X9.  When no segment size is given and the first name of the listing
    does not carry one, [md5_check] fails only after it has fetched the
    ETag of every segment, and without opening the local file (so also
    when that file does not exist): with [IndexError] for a name without
    slash, with [ValueError] when the second-to-last component is not an
    integer. *)
Theorem md5_check_size_undeterminable (w : world)
    (lf oc on stat m listing first : string) (others etags : list string)
    (sc : option string) (tr : trace) :
  shell w (swift_stat oc on) = Some stat →
  manifest_search stat = Some m →
  shell w (swift_list (segment_container_or_default sc oc) on) = Some listing →
  Py.split (Py.strip listing) = first :: others →
  mapM (segment_etag w (segment_container_or_default sc oc)) (first :: others)
  = Some etags →
  (slash_free first = true →
   md5_check w lf oc on 0 sc tr
   = (Raise (Exn IndexError "list index out of range"),
      (tr ++ [swift_stat oc on;
              swift_list (segment_container_or_default sc oc) on]
          ++ (swift_stat (segment_container_or_default sc oc)
                <$> first :: others))%list)) ∧
  (∀ component,
     Py.index_from_end (Py.split_on "/" first) 2 = Some component →
     Py.int component = None →
     md5_check w lf oc on 0 sc tr
     = (Raise (Exn ValueError "invalid literal for int() with base 10"),
        (tr ++ [swift_stat oc on;
                swift_list (segment_container_or_default sc oc) on]
            ++ (swift_stat (segment_container_or_default sc oc)
                  <$> first :: others))%list)).
Proof.
  intros Hstat Hman Hlist Hsegs Hetags.
  assert (Hstep : ∀ e,
    fst (segment_size_or_inferred 0 (first :: others) []) = Raise e →
    md5_check w lf oc on 0 sc tr
    = (Raise e,
       (tr ++ [swift_stat oc on;
               swift_list (segment_container_or_default sc oc) on]
           ++ (swift_stat (segment_container_or_default sc oc)
                 <$> first :: others))%list)).
  { intros e He. enter_segmented Hstat Hman Hlist. rewrite Hsegs.
    rewrite (remote_segment_md5s_ok _ _ _ _ _ _ Hetags).
    rewrite segment_size_outcome, He. by rewrite <- !app_assoc. }
  split.
  - intros Hfree. apply Hstep.
    unfold segment_size_or_inferred, bind, item. cbn.
    by rewrite (split_on_free "/" first Hfree).
  - intros component Hcomp Hint. apply Hstep.
    unfold segment_size_or_inferred, bind, item, int_of. cbn.
    rewrite Hcomp. cbn. by rewrite Hint.
Qed.

Lemma md5_check_size_undeterminable_witness :
  md5_check
    (World (table [ ("swift stat cont obj", "Manifest: cont_segments/obj");
                    ("swift list cont_segments --prefix obj", "obj-part");
                    ("swift stat cont_segments obj-part",
                     "ETag: 4124bc0a9335c27f086f24ba207a4912") ])
           (table [])
           sys_maxint example_memory)
    "local" "cont" "obj" 0 None []
  = (Raise (Exn IndexError "list index out of range"),
     ([] ++ [swift_stat "cont" "obj";
             swift_list (segment_container_or_default None "cont") "obj"]
         ++ (swift_stat (segment_container_or_default None "cont")
               <$> ["obj-part"]))%list)
  ∧
  md5_check
    (World (table [ ("swift stat cont obj", "Manifest: cont_segments/obj");
                    ("swift list cont_segments --prefix obj", "obj/part/0");
                    ("swift stat cont_segments obj/part/0",
                     "ETag: 4124bc0a9335c27f086f24ba207a4912") ])
           (table [])
           sys_maxint example_memory)
    "local" "cont" "obj" 0 None []
  = (Raise (Exn ValueError "invalid literal for int() with base 10"),
     ([] ++ [swift_stat "cont" "obj";
             swift_list (segment_container_or_default None "cont") "obj"]
         ++ (swift_stat (segment_container_or_default None "cont")
               <$> ["obj/part/0"]))%list).
Proof.
  split.
  - match goal with
    | |- md5_check ?w _ _ _ _ _ _ = _ =>
        apply (proj1 (md5_check_size_undeterminable w "local" "cont" "obj"
                        "Manifest: cont_segments/obj" "cont_segments/obj"
                        "obj-part" "obj-part" []
                        ["4124bc0a9335c27f086f24ba207a4912"] None []
                        eq_refl eq_refl eq_refl eq_refl eq_refl))
    end.
    reflexivity.
  - match goal with
    | |- md5_check ?w _ _ _ _ _ _ = _ =>
        apply (proj2 (md5_check_size_undeterminable w "local" "cont" "obj"
                        "Manifest: cont_segments/obj" "cont_segments/obj"
                        "obj/part/0" "obj/part/0" []
                        ["4124bc0a9335c27f086f24ba207a4912"] None []
                        eq_refl eq_refl eq_refl eq_refl eq_refl) "part")
    end;
      reflexivity.
Defined.

(** X10.  A first segment name whose size component reads as 0 makes
    [md5_check] return false for every local file, when no size is given:
    nothing is read from the file, and the empty set of local digests is
    compared with the ETags of at least one segment. *)
Theorem md5_check_zero_inferred_size (w : world)
    (lf oc on stat m listing first component data : string)
    (others etags : list string) (sc : option string) (tr : trace) :
  shell w (swift_stat oc on) = Some stat →
  manifest_search stat = Some m →
  shell w (swift_list (segment_container_or_default sc oc) on) = Some listing →
  Py.split (Py.strip listing) = first :: others →
  mapM (segment_etag w (segment_container_or_default sc oc))
       (Py.split (Py.strip listing)) = Some etags →
  Py.index_from_end (Py.split_on "/" first) 2 = Some component →
  Py.int component = Some 0 →
  files w lf = Some data →
  fst (md5_check w lf oc on 0 sc tr) = Return false.
Proof.
  intros Hstat Hman Hlist Hsegs Hetags Hcomp Hint Hfile.
  assert (Hsize : fst (segment_size_or_inferred 0
                         (Py.split (Py.strip listing)) []) = Return 0).
  { unfold segment_size_or_inferred, bind, item, int_of. cbn [Z.eqb].
    rewrite Hsegs. cbn. rewrite Hcomp. cbn. by rewrite Hint. }
  rewrite (md5_check_segmented w lf oc on stat m listing data etags 0 0 sc tr
             Hstat Hman Hlist Hetags Hsize Hfile).
  rewrite iter_read_zero.
  cbn [fst outcome_map]. f_equal. apply bool_decide_eq_false_2.
  rewrite Hsegs in Hetags. apply mapM_Some_1 in Hetags.
  destruct etags as [| etag etags]; [by apply Forall2_length in Hetags |].
  cbn. intros Hempty.
  assert (Hin : etag ∈ (∅ : gset string)) by (rewrite Hempty; set_solver).
  set_solver.
Qed.

Lemma md5_check_zero_inferred_size_witness :
  fst (md5_check
         (World (table [ ("swift stat cont obj", "Manifest: cont_segments/obj");
                         ("swift list cont_segments --prefix obj",
                          "obj/1/6/0/0");
                         ("swift stat cont_segments obj/1/6/0/0",
                          "ETag: d41d8cd98f00b204e9800998ecf8427e") ])
                (table [("local", "")])
           sys_maxint example_memory)
         "local" "cont" "obj" 0 None [])
  = Return false.
Proof.
  match goal with
  | |- fst (md5_check ?w _ _ _ _ _ _) = _ =>
      apply (md5_check_zero_inferred_size w "local" "cont" "obj"
               "Manifest: cont_segments/obj" "cont_segments/obj"
               "obj/1/6/0/0" "obj/1/6/0/0" "0" "" []
               ["d41d8cd98f00b204e9800998ecf8427e"] None [])
  end;
    reflexivity.
Defined.

(** X11.  A negative [segment_size] that fits a C [long] makes [read]
    return the whole file at once: [md5_check] then compares the digest of
    the whole local file (or no digest at all, for an empty file) with the
    set of the ETags of the segments.  A negative [segment_size] below the
    range of a C [long] makes [read], and so [md5_check], raise
    [OverflowError]. *)
Theorem md5_check_negative_size (w : world)
    (lf oc on stat m listing data : string) (etags : list string)
    (ss : Z) (sc : option string) (tr : trace) :
  shell w (swift_stat oc on) = Some stat →
  manifest_search stat = Some m →
  shell w (swift_list (segment_container_or_default sc oc) on) = Some listing →
  mapM (segment_etag w (segment_container_or_default sc oc))
       (Py.split (Py.strip listing)) = Some etags →
  files w lf = Some data →
  ss < 0 →
  (- Z.of_N (maxint w) - 1 ≤ ss →
   fst (md5_check w lf oc on ss sc tr)
   = Return (bool_decide
               ((if Py.is_empty data then ∅ else {[ MD5.hexdigest data ]})
                = (list_to_set etags : gset string)))) ∧
  (ss < - Z.of_N (maxint w) - 1 →
   fst (md5_check w lf oc on ss sc tr)
   = Raise (Exn OverflowError "Python int too large to convert to C long")).
Proof.
  intros Hstat Hman Hlist Hetags Hfile Hneg.
  assert (Hsize : fst (segment_size_or_inferred ss
                         (Py.split (Py.strip listing)) []) = Return ss).
  { unfold segment_size_or_inferred.
    destruct (Z.eqb_spec ss 0); [lia | reflexivity]. }
  rewrite (md5_check_segmented w lf oc on stat m listing data etags ss ss sc
             tr Hstat Hman Hlist Hetags Hsize Hfile).
  cbn [fst]. split.
  - intros Hlo. rewrite iter_read_negative; [| done |].
    + cbn [outcome_map]. destruct (Py.is_empty data); cbn; [done |].
      by rewrite (right_id_L ∅ (∪)).
    + unfold read_size_ok. lia.
  - intros Hlo. rewrite iter_read_overflow by lia. done.
Qed.

Lemma md5_check_negative_size_witness :
  fst (md5_check (segmented_world inferred_size_segments "aaaabbbbcc")
         "local" "cont" "obj" (-1) None [])
  = Return (bool_decide
              ((if Py.is_empty "aaaabbbbcc" then ∅
                else {[ MD5.hexdigest "aaaabbbbcc" ]})
               = (list_to_set [MD5.hexdigest "aaaabbbbcc"] : gset string)))
  ∧
  fst (md5_check (segmented_world inferred_size_segments "aaaabbbbcc")
         "local" "cont" "obj" (-100000000000000000000) None [])
  = Raise (Exn OverflowError "Python int too large to convert to C long").
Proof.
  split.
  - apply (proj1 (md5_check_negative_size
             (segmented_world inferred_size_segments "aaaabbbbcc")
             "local" "cont" "obj" "Manifest: cont_segments/obj"
             "cont_segments/obj"
             (str_concat ((λ seg, fst seg +:+ newline) <$> inferred_size_segments))
             "aaaabbbbcc" [MD5.hexdigest "aaaabbbbcc"] (-1) None []
             eq_refl eq_refl eq_refl eq_refl eq_refl eq_refl)).
    cbn. lia.
  - apply (proj2 (md5_check_negative_size
             (segmented_world inferred_size_segments "aaaabbbbcc")
             "local" "cont" "obj" "Manifest: cont_segments/obj"
             "cont_segments/obj"
             (str_concat ((λ seg, fst seg +:+ newline) <$> inferred_size_segments))
             "aaaabbbbcc" [MD5.hexdigest "aaaabbbbcc"]
             (-100000000000000000000) None []
             eq_refl eq_refl eq_refl eq_refl eq_refl eq_refl)).
    cbn. lia.
Defined.

(** X12.  In the segmented path a missing local file is found last:
    [md5_check] raises [IOError] for it only after the stat of the object,
    the listing and the stat of every segment, and after the segment size
    is known. *)
Theorem md5_check_segmented_missing_file (w : world)
    (lf oc on stat m listing : string) (etags : list string)
    (ss size : Z) (sc : option string) (tr : trace) :
  shell w (swift_stat oc on) = Some stat →
  manifest_search stat = Some m →
  shell w (swift_list (segment_container_or_default sc oc) on) = Some listing →
  mapM (segment_etag w (segment_container_or_default sc oc))
       (Py.split (Py.strip listing)) = Some etags →
  fst (segment_size_or_inferred ss (Py.split (Py.strip listing)) [])
  = Return size →
  files w lf = None →
  md5_check w lf oc on ss sc tr
  = (Raise (Exn IOError lf),
     (tr ++ [swift_stat oc on;
             swift_list (segment_container_or_default sc oc) on]
         ++ (swift_stat (segment_container_or_default sc oc)
               <$> Py.split (Py.strip listing)))%list).
Proof.
  intros Hstat Hman Hlist Hetags Hsize Hfile.
  enter_segmented Hstat Hman Hlist.
  rewrite (remote_segment_md5s_ok _ _ _ _ _ _ Hetags).
  rewrite segment_size_outcome, Hsize.
  unfold open. rewrite Hfile. unfold raise. by rewrite <- !app_assoc.
Qed.

Lemma md5_check_segmented_missing_file_witness :
  md5_check (segmented_world scenario_C_segments "aaaabbbbcc")
    "elsewhere" "cont" "obj" 0 None []
  = (Raise (Exn IOError "elsewhere"),
     ([] ++ [swift_stat "cont" "obj";
             swift_list (segment_container_or_default None "cont") "obj"]
         ++ (swift_stat (segment_container_or_default None "cont")
               <$> Py.split (Py.strip
                     (str_concat ((λ seg, fst seg +:+ newline)
                                    <$> scenario_C_segments)))))%list).
Proof.
  apply (md5_check_segmented_missing_file
           (segmented_world scenario_C_segments "aaaabbbbcc")
           "elsewhere" "cont" "obj" "Manifest: cont_segments/obj"
           "cont_segments/obj"
           (str_concat ((λ seg, fst seg +:+ newline) <$> scenario_C_segments))
           (MD5.hexdigest <$> ["aaaa"; "bbbb"; "cc"]) 0 4 None []);
    vm_compute; reflexivity.
Defined.

(** *** What the comparison of sets does not see *)

Lemma str_take_app (a x : string) : str_take (String.length a) (a +:+ x) = a.
Proof.
  induction a as [| c a IH]; [by destruct x |].
  rewrite app_String. simpl. by rewrite IH.
Qed.

Lemma str_drop_app (a x : string) : str_drop (String.length a) (a +:+ x) = x.
Proof. induction a as [| c a IH]; [done |]. by rewrite app_String. Qed.

Lemma pieces_app_full (size : nat) (a x : string) :
  (0 < size)%nat → String.length a = size →
  pieces size (a +:+ x) = a :: pieces size x.
Proof.
  intros Hpos Hlen.
  rewrite pieces_cons; [| done |].
  - subst size. by rewrite str_take_app, str_drop_app.
  - destruct a; [simpl in Hlen; lia | by rewrite app_String].
Qed.

(** X13.  Exchanging two full chunks of the local file goes unnoticed: in
    the segmented path, with the same store, the file [a b rest] and the
    file [b a rest], where [a] and [b] have the segment size, get the same
    outcome from [md5_check], and so from [check_integrity], whose size
    check sees equal lengths. *)
Theorem check_integrity_swapped_chunks
    (sh files1 files2 : string → option string) (mx mem : N)
    (lf oc on stat m listing a b rest : string) (etags : list string)
    (ss size : Z) (sc : option string) (tr : trace) :
  sh (swift_stat oc on) = Some stat →
  manifest_search stat = Some m →
  sh (swift_list (segment_container_or_default sc oc) on) = Some listing →
  mapM (segment_etag (World sh files1 mx mem)
          (segment_container_or_default sc oc))
       (Py.split (Py.strip listing)) = Some etags →
  fst (segment_size_or_inferred ss (Py.split (Py.strip listing)) [])
  = Return size →
  1 ≤ size →
  Z.of_nat (String.length a) = size →
  Z.of_nat (String.length b) = size →
  files1 lf = Some (a +:+ b +:+ rest) →
  files2 lf = Some (b +:+ a +:+ rest) →
  md5_check (World sh files1 mx mem) lf oc on ss sc tr
  = md5_check (World sh files2 mx mem) lf oc on ss sc tr ∧
  check_integrity (World sh files1 mx mem) lf oc on ss sc tr
  = check_integrity (World sh files2 mx mem) lf oc on ss sc tr.
Proof.
  intros Hstat Hman Hlist Hetags Hsize Hpos Ha Hb Hfile1 Hfile2.
  assert (Hmd5 : ∀ tr',
    md5_check (World sh files1 mx mem) lf oc on ss sc tr'
    = md5_check (World sh files2 mx mem) lf oc on ss sc tr').
  { intros tr'.
    rewrite (md5_check_segmented (World sh files1 mx mem) lf oc on stat m
               listing (a +:+ b +:+ rest) etags ss size sc tr'
               Hstat Hman Hlist Hetags Hsize Hfile1).
    rewrite (md5_check_segmented (World sh files2 mx mem) lf oc on stat m
               listing (b +:+ a +:+ rest) etags ss size sc tr'
               Hstat Hman Hlist Hetags Hsize Hfile2).
    rewrite !iter_read_positive by done. cbn [maxint memory shell].
    destruct (Z.of_N mx <? size); [done |].
    destruct (Z.of_N mem <? size); [done |].
    cbn [outcome_map].
    rewrite !pieces_app_full by lia. cbn [fmap list_fmap list_to_set foldr].
    by rewrite !(assoc_L (∪)),
      (comm_L (∪) {[ MD5.hexdigest a ]} {[ MD5.hexdigest b ]}). }
  split; [apply Hmd5 |].
  assert (Hsame : filesize_check (World sh files1 mx mem) lf oc on tr
                  = filesize_check (World sh files2 mx mem) lf oc on tr).
  { unfold filesize_check, bind, check_output. cbn [shell]. rewrite Hstat.
    destruct (Py.is_empty stat); [done |].
    destruct (content_length_search stat) as [group1 |]; [| done].
    unfold int_of. destruct (Py.int group1) as [n |]; [| done]. cbn [ret].
    unfold getsize. cbn [files]. rewrite Hfile1, Hfile2.
    rewrite !append_length.
    by replace (String.length b + (String.length a + String.length rest))%nat
      with (String.length a + (String.length b + String.length rest))%nat
      by lia. }
  unfold check_integrity, bind. rewrite Hsame.
  destruct (filesize_check (World sh files2 mx mem) lf oc on tr)
    as [[[] | e |] tr']; [apply Hmd5 | done..].
Qed.

Lemma check_integrity_swapped_chunks_witness :
  md5_check
    (World (shell (segmented_world scenario_C_segments ""))
           (table [("local", "aaaabbbbcc")])
           sys_maxint example_memory)
    "local" "cont" "obj" 0 None []
  = md5_check
      (World (shell (segmented_world scenario_C_segments ""))
             (table [("local", "bbbbaaaacc")])
           sys_maxint example_memory)
      "local" "cont" "obj" 0 None [] ∧
  check_integrity
    (World (shell (segmented_world scenario_C_segments ""))
           (table [("local", "aaaabbbbcc")])
           sys_maxint example_memory)
    "local" "cont" "obj" 0 None []
  = check_integrity
      (World (shell (segmented_world scenario_C_segments ""))
             (table [("local", "bbbbaaaacc")])
           sys_maxint example_memory)
      "local" "cont" "obj" 0 None [].
Proof.
  apply (check_integrity_swapped_chunks
           (shell (segmented_world scenario_C_segments ""))
           (table [("local", "aaaabbbbcc")])
           (table [("local", "bbbbaaaacc")])
           sys_maxint example_memory
           "local" "cont" "obj" "Manifest: cont_segments/obj"
           "cont_segments/obj"
           (str_concat ((λ seg, fst seg +:+ newline) <$> scenario_C_segments))
           "aaaa" "bbbb" "cc" (MD5.hexdigest <$> ["aaaa"; "bbbb"; "cc"])
           0 4 None []);
    first [vm_compute; reflexivity | lia].
Defined.

(** The local file with two chunks exchanged passes [md5_check]. *)
Example md5_check_swapped_passes :
  fst (run (md5_check (segmented_world scenario_C_segments "bbbbaaaacc")
              "local" "cont" "obj" 0 None)) = Return true.
Proof. vm_compute. reflexivity. Qed.

(** ** The command-line entry point *)

(** X14.  [main] runs both checks and reports both: when the size check
    returns [b1] and the digest check, run after it, returns [b2], [main]
    has written the banner and the two verdicts in order and returns
    normally, also when a check failed.  The digest check is run even when
    the size check returned false, unlike in [check_integrity], which then
    stops; [check_integrity] returns true exactly when both verdicts are
    [Passed]. *)
Theorem main_reports_both_checks (w : world) (parse_args : Cli.IO Cli.args)
    (a : Cli.args) (b1 b2 : bool) (tr tr1 tr2 : trace) (out : list string) :
  filesize_check w (Cli.local_filepath a) (Cli.remote_container a)
    (Cli.remote_object a) tr = (Return b1, tr1) →
  md5_check w (Cli.local_filepath a) (Cli.remote_container a)
    (Cli.remote_object a) (Cli.segment_size a) (Cli.segment_container a) tr1
  = (Return b2, tr2) →
  Cli.main w parse_args (Some a) (tr, out)
  = (Return tt,
     (tr2,
      (out ++ [ Cli.banner a;
                "File size check: "; Cli.verdict b1;
                "MD5 checksum check: "; Cli.verdict b2 ])%list)) ∧
  check_integrity w (Cli.local_filepath a) (Cli.remote_container a)
    (Cli.remote_object a) (Cli.segment_size a) (Cli.segment_container a) tr
  = (Return (b1 && b2), if b1 then tr2 else tr1).
Proof.
  intros Hsize Hmd5. split.
  - unfold Cli.main, Cli.io_bind, Cli.io_ret, Cli.call, Cli.stdout_write.
    cbn [fst snd]. rewrite Hsize. cbn [fst snd]. rewrite Hmd5. cbn [fst snd].
    by rewrite <- !app_assoc.
  - unfold check_integrity, bind. rewrite Hsize.
    destruct b1; [by rewrite Hmd5 | done].
Qed.

Lemma main_reports_both_checks_witness :
  Cli.main
    (plain_world (stat_output "9" "781e5e245d69b566979b86e28d23f2c7")
       "0123456789")
    (Cli.io_ret (Cli.Args "local" "cont" "obj" 0 None))
    (Some (Cli.Args "local" "cont" "obj" 0 None)) ([], [])
  = (Return tt,
     (["swift stat cont obj"; "swift stat cont obj"],
      ([] ++ [ Cli.banner (Cli.Args "local" "cont" "obj" 0 None);
               "File size check: "; Cli.verdict false;
               "MD5 checksum check: "; Cli.verdict true ])%list)) ∧
  check_integrity
    (plain_world (stat_output "9" "781e5e245d69b566979b86e28d23f2c7")
       "0123456789")
    "local" "cont" "obj" 0 None []
  = (Return (false && true),
     if false then ["swift stat cont obj"; "swift stat cont obj"]
     else ["swift stat cont obj"]).
Proof.
  apply (main_reports_both_checks
           (plain_world (stat_output "9" "781e5e245d69b566979b86e28d23f2c7")
              "0123456789")
           (Cli.io_ret (Cli.Args "local" "cont" "obj" 0 None))
           (Cli.Args "local" "cont" "obj" 0 None) false true
           [] ["swift stat cont obj"]
           ["swift stat cont obj"; "swift stat cont obj"] []);
    vm_compute; reflexivity.
Defined.

(** What [main] prints for 10 local bytes against a record of 9 bytes with
    the right digest. *)
Example main_output :
  snd (snd (Cli.main
              (plain_world (stat_output "9" "781e5e245d69b566979b86e28d23f2c7")
                 "0123456789")
              (Cli.io_ret (Cli.Args "local" "cont" "obj" 0 None))
              (Some (Cli.Args "local" "cont" "obj" 0 None)) ([], [])))
  = [ "Comparing local against cont/obj" +:+ newline;
      "File size check: "; "Failed" +:+ newline;
      "MD5 checksum check: "; "Passed" +:+ newline ].
Proof. vm_compute. reflexivity. Qed.

(** X15.  [main] catches nothing.  When the size check raises, [main]
    raises the same exception after writing the banner and
    ['File size check: '], with no verdict, and the digest check is not
    run; when the digest check raises, [main] raises it after the verdict
    of the size check and ['MD5 checksum check: ']. *)
Theorem main_stops_at_error (w : world) (parse_args : Cli.IO Cli.args)
    (a : Cli.args) (e : exn) (tr tr1 : trace) (out : list string) :
  (filesize_check w (Cli.local_filepath a) (Cli.remote_container a)
     (Cli.remote_object a) tr = (Raise e, tr1) →
   Cli.main w parse_args (Some a) (tr, out)
   = (Raise e,
      (tr1, (out ++ [Cli.banner a; "File size check: "])%list))) ∧
  (∀ b1 tr2,
     filesize_check w (Cli.local_filepath a) (Cli.remote_container a)
       (Cli.remote_object a) tr = (Return b1, tr1) →
     md5_check w (Cli.local_filepath a) (Cli.remote_container a)
       (Cli.remote_object a) (Cli.segment_size a) (Cli.segment_container a) tr1
     = (Raise e, tr2) →
     Cli.main w parse_args (Some a) (tr, out)
     = (Raise e,
        (tr2,
         (out ++ [ Cli.banner a; "File size check: "; Cli.verdict b1;
                   "MD5 checksum check: " ])%list))).
Proof.
  split.
  - intros Hsize.
    unfold Cli.main, Cli.io_bind, Cli.io_ret, Cli.call, Cli.stdout_write.
    cbn [fst snd]. rewrite Hsize. by rewrite <- !app_assoc.
  - intros b1 tr2 Hsize Hmd5.
    unfold Cli.main, Cli.io_bind, Cli.io_ret, Cli.call, Cli.stdout_write.
    cbn [fst snd]. rewrite Hsize. cbn [fst snd]. rewrite Hmd5.
    by rewrite <- !app_assoc.
Qed.

Lemma main_stops_at_error_witness :
  Cli.main (plain_world "" "0123456789")
    (Cli.io_ret (Cli.Args "local" "cont" "obj" 0 None))
    (Some (Cli.Args "local" "cont" "obj" 0 None)) ([], [])
  = (Raise (Exn ValueError "Swift stat returned nothing"),
     (["swift stat cont obj"],
      ([] ++ [ Cli.banner (Cli.Args "local" "cont" "obj" 0 None);
               "File size check: " ])%list)) ∧
  Cli.main (plain_world "Content Length: 10" "0123456789")
    (Cli.io_ret (Cli.Args "local" "cont" "obj" 0 None))
    (Some (Cli.Args "local" "cont" "obj" 0 None)) ([], [])
  = (Raise (Exn AttributeError "ETag not found for object obj in swift stat"),
     (["swift stat cont obj"; "swift stat cont obj"],
      ([] ++ [ Cli.banner (Cli.Args "local" "cont" "obj" 0 None);
               "File size check: "; Cli.verdict true;
               "MD5 checksum check: " ])%list)).
Proof.
  split.
  - apply (proj1 (main_stops_at_error (plain_world "" "0123456789")
                    (Cli.io_ret (Cli.Args "local" "cont" "obj" 0 None))
                    (Cli.Args "local" "cont" "obj" 0 None)
                    (Exn ValueError "Swift stat returned nothing")
                    [] ["swift stat cont obj"] [])).
    reflexivity.
  - apply (proj2 (main_stops_at_error
                    (plain_world "Content Length: 10" "0123456789")
                    (Cli.io_ret (Cli.Args "local" "cont" "obj" 0 None))
                    (Cli.Args "local" "cont" "obj" 0 None)
                    (Exn AttributeError
                       "ETag not found for object obj in swift stat")
                    [] ["swift stat cont obj"] [])
             true ["swift stat cont obj"; "swift stat cont obj"]);
      reflexivity.
Defined.

(** ** What the checks rely on, and what they miss *)

(** A size check that passes has read the length of the file from the
    record. *)
Lemma filesize_check_true (sh fs : string → option string) (mx mem : N)
    (lf oc on data : string) (tr tr' : trace) :
  fs lf = Some data →
  filesize_check (World sh fs mx mem) lf oc on tr = (Return true, tr') →
  ∃ stat group1,
    sh (swift_stat oc on) = Some stat ∧
    content_length_search stat = Some group1 ∧
    Py.int group1 = Some (Z.of_nat (String.length data)).
Proof.
  intros Hfile. unfold filesize_check, bind, check_output. cbn [shell].
  destruct (sh (swift_stat oc on)) as [stat |] eqn:Hstat; [| done].
  destruct (Py.is_empty stat); [done |].
  destruct (content_length_search stat) as [group1 |] eqn:Hsearch; [| done].
  unfold int_of. destruct (Py.int group1) as [n |] eqn:Hint; [| done].
  cbn [ret].
  unfold getsize. cbn [files]. rewrite Hfile. unfold ret.
  intros H. injection H as Heq _. apply Z.eqb_eq in Heq. subst n.
  by exists stat, group1.
Qed.

(** X16.  A chunk that occurs twice is not seen by the digest check: in the
    segmented path the file [a rest] and the file [a a rest], where [a] has
    the segment size, get the same outcome from [md5_check].  It is the
    size check that tells them apart: [check_integrity] cannot return true
    for both. *)
Theorem md5_check_repeated_chunk
    (sh files1 files2 : string → option string) (mx mem : N)
    (lf oc on stat m listing a rest : string) (etags : list string)
    (ss size : Z) (sc : option string) (tr : trace) :
  sh (swift_stat oc on) = Some stat →
  manifest_search stat = Some m →
  sh (swift_list (segment_container_or_default sc oc) on) = Some listing →
  mapM (segment_etag (World sh files1 mx mem)
          (segment_container_or_default sc oc))
       (Py.split (Py.strip listing)) = Some etags →
  fst (segment_size_or_inferred ss (Py.split (Py.strip listing)) [])
  = Return size →
  1 ≤ size →
  Z.of_nat (String.length a) = size →
  files1 lf = Some (a +:+ rest) →
  files2 lf = Some (a +:+ a +:+ rest) →
  md5_check (World sh files1 mx mem) lf oc on ss sc tr
  = md5_check (World sh files2 mx mem) lf oc on ss sc tr ∧
  ¬ (fst (check_integrity (World sh files1 mx mem) lf oc on ss sc tr)
     = Return true ∧
     fst (check_integrity (World sh files2 mx mem) lf oc on ss sc tr)
     = Return true).
Proof.
  intros Hstat Hman Hlist Hetags Hsize Hpos Ha Hfile1 Hfile2. split.
  - rewrite (md5_check_segmented (World sh files1 mx mem) lf oc on stat m
               listing (a +:+ rest) etags ss size sc tr
               Hstat Hman Hlist Hetags Hsize Hfile1).
    rewrite (md5_check_segmented (World sh files2 mx mem) lf oc on stat m
               listing (a +:+ a +:+ rest) etags ss size sc tr
               Hstat Hman Hlist Hetags Hsize Hfile2).
    rewrite !iter_read_positive by done. cbn [maxint memory shell].
    destruct (Z.of_N mx <? size); [done |].
    destruct (Z.of_N mem <? size); [done |].
    cbn [outcome_map].
    rewrite !pieces_app_full by lia. cbn [fmap list_fmap list_to_set foldr].
    by rewrite (assoc_L (∪) {[ MD5.hexdigest a ]}), (idemp_L (∪)).
  - intros [H1 H2].
    assert (Hpass : ∀ fs,
      fst (check_integrity (World sh fs mx mem) lf oc on ss sc tr) = Return true →
      ∃ tr', filesize_check (World sh fs mx mem) lf oc on tr = (Return true, tr')).
    { intros fs. unfold check_integrity, bind.
      destruct (filesize_check (World sh fs mx mem) lf oc on tr)
        as [[[] | e |] tr']; [by exists tr' | done..]. }
    destruct (Hpass _ H1) as [tr1 Hsize1].
    destruct (Hpass _ H2) as [tr2 Hsize2].
    destruct (filesize_check_true _ _ _ _ _ _ _ _ _ _ Hfile1 Hsize1)
      as (stat1 & g1 & Hs1 & Hg1 & Hn1).
    destruct (filesize_check_true _ _ _ _ _ _ _ _ _ _ Hfile2 Hsize2)
      as (stat2 & g2 & Hs2 & Hg2 & Hn2).
    rewrite Hs1 in Hs2. injection Hs2 as <-.
    rewrite Hg1 in Hg2. injection Hg2 as <-.
    rewrite Hn1 in Hn2. injection Hn2 as Hlen.
    rewrite !append_length in Hlen. lia.
Qed.

Lemma md5_check_repeated_chunk_witness :
  md5_check
    (World (shell (segmented_world scenario_C_segments ""))
           (table [("local", "aaaabbbbcc")])
           sys_maxint example_memory)
    "local" "cont" "obj" 0 None []
  = md5_check
      (World (shell (segmented_world scenario_C_segments ""))
             (table [("local", "aaaaaaaabbbbcc")])
           sys_maxint example_memory)
      "local" "cont" "obj" 0 None [] ∧
  ¬ (fst (check_integrity
            (World (shell (segmented_world scenario_C_segments ""))
                   (table [("local", "aaaabbbbcc")])
           sys_maxint example_memory)
            "local" "cont" "obj" 0 None []) = Return true ∧
     fst (check_integrity
            (World (shell (segmented_world scenario_C_segments ""))
                   (table [("local", "aaaaaaaabbbbcc")])
           sys_maxint example_memory)
            "local" "cont" "obj" 0 None []) = Return true).
Proof.
  apply (md5_check_repeated_chunk
           (shell (segmented_world scenario_C_segments ""))
           (table [("local", "aaaabbbbcc")])
           (table [("local", "aaaaaaaabbbbcc")])
           sys_maxint example_memory
           "local" "cont" "obj" "Manifest: cont_segments/obj"
           "cont_segments/obj"
           (str_concat ((λ seg, fst seg +:+ newline) <$> scenario_C_segments))
           "aaaa" "bbbbcc" (MD5.hexdigest <$> ["aaaa"; "bbbb"; "cc"])
           0 4 None []);
    first [vm_compute; reflexivity | lia].
Defined.

Lemma swift_list_not_stat (c on c' on' : string) :
  swift_list c on ≠ swift_stat c' on'.
Proof. unfold swift_list, swift_stat. rewrite !app_String. discriminate. Qed.

Lemma swift_stat_segments_not_object (oc on segment : string) :
  swift_stat (oc +:+ "_segments") segment ≠ swift_stat oc on.
Proof.
  unfold swift_stat. intros H.
  apply (inj (String.app "swift stat ")) in H.
  rewrite append_assoc in H. apply (inj (String.app oc)) in H.
  rewrite !app_String in H. discriminate H.
Qed.

Lemma remote_segment_md5s_with_output
    (sh fs : string → option string) (mx mem : N)
    (oc on out : string) (segments : list string) (acc : gset string)
    (tr : trace) :
  remote_segment_md5s (World (with_output sh (swift_stat oc on) out) fs mx mem)
    (oc +:+ "_segments") segments acc tr
  = remote_segment_md5s (World sh fs mx mem) (oc +:+ "_segments") segments acc tr.
Proof.
  revert acc tr. induction segments as [| segment segments IH]; intros acc tr;
    [done |].
  cbn [remote_segment_md5s]. unfold bind, check_output. cbn [shell].
  unfold with_output at 1 2.
  destruct (String.eqb_spec (swift_stat (oc +:+ "_segments") segment)
              (swift_stat oc on)) as [E | _];
    [by apply swift_stat_segments_not_object in E |].
  destruct (sh (swift_stat (oc +:+ "_segments") segment)) as [stat |];
    [| done].
  destruct (etag_search stat); [apply IH | done].
Qed.

(** X17.  Of the record of a segmented object [md5_check] uses only that
    it names a manifest.  With the default segment container, replacing the
    record by any other record that names a manifest, pointing anywhere,
    changes nothing: the segments are always looked up by the naming
    convention, never where the manifest points, and the ETag of the
    object itself is not compared. *)
Theorem md5_check_manifest_value_unused
    (sh fs : string → option string) (mx mem : N)
    (lf oc on stat m stat' m' : string) (ss : Z) (tr : trace) :
  sh (swift_stat oc on) = Some stat →
  manifest_search stat = Some m →
  manifest_search stat' = Some m' →
  md5_check (World (with_output sh (swift_stat oc on) stat') fs mx mem)
    lf oc on ss None tr
  = md5_check (World sh fs mx mem) lf oc on ss None tr.
Proof.
  intros Hstat Hman Hman'.
  unfold md5_check, bind, check_output. cbn [shell files].
  unfold with_output at 1. rewrite String.eqb_refl, Hstat.
  destruct stat as [| c stat]; [discriminate Hman |].
  destruct stat' as [| c' stat']; [discriminate Hman' |].
  cbn [Py.is_empty]. rewrite Hman, Hman'. cbv zeta.
  cbn [segment_container_or_default]. unfold with_output at 1.
  destruct (String.eqb_spec (swift_list (oc +:+ "_segments") on)
              (swift_stat oc on)) as [E | _];
    [by apply swift_list_not_stat in E |].
  destruct (sh (swift_list (oc +:+ "_segments") on)) as [listing |]; [| done].
  unfold try_except. rewrite remote_segment_md5s_with_output.
  destruct (remote_segment_md5s (World sh fs mx mem) _ _ ∅ _)
    as [[remote | [cls msg] |] tr'];
    [| by destruct (decide (cls = AttributeError)) | done].
  rewrite (segment_size_outcome _ _ tr').
  destruct (fst (segment_size_or_inferred ss _ [])) as [size | e |];
    [| done..].
  unfold open. cbn [files]. destruct (fs lf) as [data |]; [| done].
  unfold ret at 1 3. cbv iota beta.
  by rewrite (iter_read_limits _ _ (World sh fs mx mem)).
Qed.

Lemma md5_check_manifest_value_unused_witness :
  md5_check
    (World (with_output (shell (segmented_world scenario_C_segments "aaaabbbbcc"))
              (swift_stat "cont" "obj")
              ("Manifest: elsewhere/other" +:+ newline +:+ "ETag: 0123"))
           (files (segmented_world scenario_C_segments "aaaabbbbcc"))
           sys_maxint example_memory)
    "local" "cont" "obj" 0 None []
  = md5_check
      (World (shell (segmented_world scenario_C_segments "aaaabbbbcc"))
             (files (segmented_world scenario_C_segments "aaaabbbbcc"))
           sys_maxint example_memory)
      "local" "cont" "obj" 0 None [].
Proof.
  apply (md5_check_manifest_value_unused
           (shell (segmented_world scenario_C_segments "aaaabbbbcc"))
           (files (segmented_world scenario_C_segments "aaaabbbbcc"))
           sys_maxint example_memory
           "local" "cont" "obj" "Manifest: cont_segments/obj"
           "cont_segments/obj"
           ("Manifest: elsewhere/other" +:+ newline +:+ "ETag: 0123")
           "elsewhere/other" 0 []);
    reflexivity.
Defined.

(** X18.  Reading the ETag of a non-segmented record: when the record
    names no manifest and its first [ETag:] is followed by whitespace and a
    word [etag] (letters, digits, underscores) that ends there,
    [md5_check] returns whether [etag] is the hexadecimal digest of the
    local file.  Lines before and after do not matter. *)
Theorem md5_check_reads_etag (w : world)
    (lf oc on pre ws etag rest data : string) (ss : Z) (sc : option string)
    (tr : trace) :
  shell w (swift_stat oc on)
  = Some (pre +:+ "ETag:" +:+ ws +:+ etag +:+ rest) →
  manifest_search (pre +:+ "ETag:" +:+ ws +:+ etag +:+ rest) = None →
  first_occurrence "ETag:" pre = true →
  ws ≠ "" → Py.all Py.isspace ws = true →
  etag ≠ "" → Py.all Py.isword etag = true →
  not_starting_with Py.isword rest = true →
  files w lf = Some data →
  md5_check w lf oc on ss sc tr
  = (Return (bool_decide (MD5.hexdigest data = etag)),
     (tr ++ [swift_stat oc on])%list).
Proof.
  intros Hstat Hman Hfirst Hws Hsp Hne Hall Hrest Hfile.
  apply (md5_check_plain _ _ _ _ _ _ _ _ _ _ Hstat Hman); [| done].
  apply re_search_first; [done |].
  apply match_here_group; auto using isword_not_space.
Qed.

Lemma md5_check_reads_etag_witness :
  md5_check
    (plain_world (stat_output "10" "781e5e245d69b566979b86e28d23f2c7")
       "0123456789")
    "local" "cont" "obj" 0 None []
  = (Return (bool_decide (MD5.hexdigest "0123456789"
                          = "781e5e245d69b566979b86e28d23f2c7")),
     ([] ++ [swift_stat "cont" "obj"])%list).
Proof.
  apply (md5_check_reads_etag
           (plain_world (stat_output "10" "781e5e245d69b566979b86e28d23f2c7")
              "0123456789")
           "local" "cont" "obj"
           ("       Account: AUTH_test" +:+ newline
            +:+ "  Content Type: application/octet-stream" +:+ newline
            +:+ "Content Length: " +:+ "10" +:+ newline
            +:+ "          ")
           " " "781e5e245d69b566979b86e28d23f2c7" newline
           "0123456789" 0 None []);
    first [reflexivity | discriminate].
Defined.
